(** * A reloadable single-object database: [database_interface.py]

    The development embeds the class [DatabaseInterface] (its constructor,
    [load], [expose], [expose_or_load], [save] and the two generator based
    context managers) as state passing functions over an explicit world:
    the object heap, the file system, the console and the wall clock.

    What Python's own library and the operating system do is not part of
    the repository.  The functions the class calls from [pickle], [os.path],
    [os] and [repr], and the way the operating system answers an [open], are
    the fields of the class [PyRuntime]; every definition and theorem is
    generic in them.  [readline], [str.strip], [print] and [contextlib]'s
    [contextmanager] protocol are written out below.

    A [string] stands for a [str] and for [bytes] alike: a character is a
    code point below 256, and text files are read and written in Latin-1,
    where a character is a byte. *)

From Stdlib Require Import Ascii String.
From stdpp Require Import gmap strings list fin_maps.

Local Open Scope string_scope.

(** ** Python values and exceptions *)

(** Objects live in a heap and are named by their address; [None] is the one
    value that is not a heap object.  Two references are the same object
    exactly when the addresses are equal. *)
Definition loc := positive.

Inductive pyval :=
| PyNone
| PyRef (l : loc).

#[global] Instance pyval_eq_dec : EqDecision pyval.
Proof. solve_decision. Defined.

(** [v is None] *)
Definition is_None (v : pyval) : bool :=
  match v with PyNone => true | PyRef _ => false end.

(** The exceptions the module raises or lets through.  [NoDatabaseError] is
    the class declared in the module; the last constructor stands for the
    exceptions that do not derive from [Exception]. *)
Inductive exn :=
| NoDatabaseError
| FileNotFoundError (msg : string)
| RuntimeError (msg : string)
| IsADirectoryError (msg : string)
| NotADirectoryError (msg : string)
| FileExistsError (msg : string)
| PicklingError
| UnpicklingError
| EOFError
| TypeError
| OtherException (name : string)
| BaseExceptionOnly (name : string).

#[global] Instance exn_eq_dec : EqDecision exn.
Proof. solve_decision. Defined.

(** [except NoDatabaseError], [except FileNotFoundError], [except Exception] *)
Definition is_NoDatabaseError (e : exn) : bool :=
  match e with NoDatabaseError => true | _ => false end.

Definition is_FileNotFoundError (e : exn) : bool :=
  match e with FileNotFoundError _ => true | _ => false end.

Definition is_Exception (e : exn) : bool :=
  match e with BaseExceptionOnly _ => false | _ => true end.

Inductive result (A : Type) :=
| Ok (a : A)
| Raise (e : exn).
Arguments Ok {A} a.
Arguments Raise {A} e.

(** ** The part of Python's library the module calls *)

Inductive io_mode := Reading | Writing.

(** [obj] is what a heap object holds, compared structurally (deep
    equality).  A pickle is taken of a snapshot, [None] for Python's [None]
    and [Some o] for an object holding [o].

    [pickle_dumps] answers [None] when [pickle.dump] raises; it has then
    written [pickle_partial] and raises [pickle_refusal].  [pickle_loads]
    answers the snapshot of a pickle by value, which [pickle.load] turns into
    [None] or a new object.  For other bytes [unpickle_global] answers the
    existing object that a pickle by reference names (a class, a function),
    and when there is none [pickle.load] raises [unpickle_refusal].

    The operating system answers from the directories and the regular
    files there are, [dirs] and [present].  [os_isdir dirs present p] is
    [os.path.isdir(p)] and [os_mkdir_refusal dirs present p] the exception
    [os.mkdir(p)] raises, if any.  [os_locate dirs present mode p] is what
    the operating system makes of [open(p, mode)]: the file that [p] names,
    there or not, given by a key that two spellings of one file share, or
    the exception the call raises (a missing directory part, a directory, a
    regular file in the place of a directory, a refusal). *)
Class PyRuntime := {
  obj : Type;
  empty_dict : obj;
  pickle_dumps : option obj → option string;
  pickle_partial : option obj → string;
  pickle_refusal : option obj → exn;
  pickle_loads : string → option (option obj);
  unpickle_global : string → option loc;
  unpickle_refusal : string → exn;
  path_join : string → string → string;
  normpath : string → string;
  repr : string → string;
  os_isdir : gset string → gset string → string → bool;
  os_mkdir_refusal : gset string → gset string → string → option exn;
  os_locate : gset string → gset string → io_mode → string → result string
}.

(** A value is serializable when pickling it succeeds and unpickling the
    bytes gives the value back, as a pickle by value does. *)
Definition serializable `{PyRuntime} (snap : option obj) : Prop :=
  ∃ bytes, pickle_dumps snap = Some bytes ∧ pickle_loads bytes = Some snap.

(** ** Text files: [readline] and [str.strip] *)

(** [str.isspace] on the code points below 256: tab to carriage return,
    the four separators 28 to 31, the space, the next-line character 133
    and the no-break space 160. *)
Definition is_space (c : ascii) : bool :=
  let n := nat_of_ascii c in
  (Nat.leb 9 n && Nat.leb n 13) || (Nat.leb 28 n && Nat.leb n 32)
  || Nat.eqb n 133 || Nat.eqb n 160.

Definition LF : ascii := ascii_of_nat 10.
Definition CR : ascii := ascii_of_nat 13.

(** [f.readline()] on a file opened in text mode with universal newlines:
    the text up to and including the first line end, which reads as a line
    feed whether the file has a line feed or a carriage return there. *)
Fixpoint readline (s : string) : string :=
  match s with
  | EmptyString => EmptyString
  | String c r =>
      if decide (c = LF) then String LF EmptyString
      else if decide (c = CR) then String LF EmptyString
      else String c (readline r)
  end.

Fixpoint lstrip (s : string) : string :=
  match s with
  | EmptyString => EmptyString
  | String c r => if is_space c then lstrip r else s
  end.

Fixpoint rstrip (s : string) : string :=
  match s with
  | EmptyString => EmptyString
  | String c r =>
      match rstrip r with
      | EmptyString => if is_space c then EmptyString else String c EmptyString
      | r' => String c r'
      end
  end.

Definition strip (s : string) : string := rstrip (lstrip s).

(** [all(c.isspace() for c in s)] *)
Fixpoint only_whitespace (s : string) : bool :=
  match s with
  | EmptyString => true
  | String c r => is_space c && only_whitespace r
  end.

(** [not s] for a string *)
Definition is_empty (s : string) : bool :=
  match s with EmptyString => true | String _ _ => false end.

(** ** The world and the store object *)

Inductive io_event :=
| OpenRead (path : string)
| OpenWrite (path : string).

Section Model.
Context `{PyRuntime}.

(** [files] holds the content of every regular file, under the key
    [os_locate] gives for it; [dirs] are the directories there are, under
    the names they were made with.  [io_log] records every [open], in
    order, latest first; it is an observer and no operation reads it.
    [clock n] is what the [n]th call of
    [datetime.datetime.now().strftime(...)] gives: the formatted local time
    or the exception it raises. *)
Record world := World {
  heap : gmap loc obj;
  files : gmap string string;
  dirs : gset string;
  stdout : list string;
  io_log : list io_event;
  clock : nat → result string;
  ticks : nat
}.

Definition set_heap (h : gmap loc obj) (w : world) : world :=
  World h (files w) (dirs w) (stdout w) (io_log w) (clock w) (ticks w).
Definition set_files (fs : gmap string string) (w : world) : world :=
  World (heap w) fs (dirs w) (stdout w) (io_log w) (clock w) (ticks w).
Definition set_dirs (ds : gset string) (w : world) : world :=
  World (heap w) (files w) ds (stdout w) (io_log w) (clock w) (ticks w).
Definition set_stdout (out : list string) (w : world) : world :=
  World (heap w) (files w) (dirs w) out (io_log w) (clock w) (ticks w).
Definition set_io_log (lg : list io_event) (w : world) : world :=
  World (heap w) (files w) (dirs w) (stdout w) lg (clock w) (ticks w).
Definition set_ticks (n : nat) (w : world) : world :=
  World (heap w) (files w) (dirs w) (stdout w) (io_log w) (clock w) n.

(** The attributes of a [DatabaseInterface] object.  [database_creator] is
    caller code: it may allocate, print or raise, and it does not see the
    store. *)
Record DatabaseInterface := Store {
  save_folder : string;
  database_creator : world → result pyval * world;
  most_recent_save_file : string;
  exact_most_recent_save_file : string;
  _database : pyval
}.

Definition set_database (v : pyval) (self : DatabaseInterface) : DatabaseInterface :=
  Store (save_folder self) (database_creator self) (most_recent_save_file self)
        (exact_most_recent_save_file self) v.

(** ** Computations: state passing with exceptions *)

Definition state : Type := DatabaseInterface * world.

Definition M (A : Type) : Type := state → result A * state.

Definition ret {A} (a : A) : M A := fun s => (Ok a, s).

Definition raise {A} (e : exn) : M A := fun s => (Raise e, s).

Definition bind {A B} (m : M A) (k : A → M B) : M B := fun s =>
  match m s with
  | (Ok a, s') => k a s'
  | (Raise e, s') => (Raise e, s')
  end.

(** [try: m except E: h e], [E] given by the test [catches] *)
Definition try_except {A} (m : M A) (catches : exn → bool) (h : exn → M A) : M A :=
  fun s =>
    match m s with
    | (Raise e, s') => if catches e then h e s' else (Raise e, s')
    | r => r
    end.

End Model.

Declare Scope py_scope.
Delimit Scope py_scope with py.
Notation "x <- m ;; k" := (bind m (fun x => k))
  (at level 100, m at next level, right associativity) : py_scope.
Notation "m ;;; k" := (bind m (fun _ => k))
  (at level 100, right associativity) : py_scope.

Local Open Scope py_scope.

Section Store.
Context `{PyRuntime}.

(** ** Primitive effects *)

Definition get_self : M DatabaseInterface := fun s => (Ok (fst s), s).

Definition get_world : M world := fun s => (Ok (snd s), s).

Definition modify_world (f : world → world) : M unit := fun s =>
  (Ok tt, (fst s, f (snd s))).

(** [self._database = v] *)
Definition assign_database (v : pyval) : M unit := fun s =>
  (Ok tt, (set_database v (fst s), snd s)).

(** [print(line)] *)
Definition print (line : string) : M unit :=
  modify_world (fun w => set_stdout (stdout w ++ [line]) w).

(** What the operating system makes of [open(path, mode)] in [w] *)
Definition locate (w : world) (mode : io_mode) (path : string) : result string :=
  os_locate (dirs w) (dom (files w)) mode path.

(** What [open(path, "r")] or [open(path, "rb")] and reading the file
    give in [w]: the exception of the operating system, the content of the
    file that [path] names, or [FileNotFoundError] when that file is not
    there. *)
Definition read_file (w : world) (path : string) : result string :=
  match locate w Reading path with
  | Raise e => Raise e
  | Ok key =>
      match files w !! key with
      | Some content => Ok content
      | None => Raise (FileNotFoundError path)
      end
  end.

(** [open(path, "r")] and [open(path, "rb")], followed by reading the file *)
Definition open_read (path : string) : M string := fun s =>
  (read_file (snd s) path,
   (fst s, set_io_log (OpenRead path :: io_log (snd s)) (snd s))).

(** [open(path, "w")] and [open(path, "wb+")]: the exception of the
    operating system, or the file that [path] names, created, or emptied
    when it is there.  The answer is the key of the open file. *)
Definition open_write (path : string) : M string := fun s =>
  let w := set_io_log (OpenWrite path :: io_log (snd s)) (snd s) in
  match locate (snd s) Writing path with
  | Raise e => (Raise e, (fst s, w))
  | Ok key =>
      (Ok key, (fst s, set_files (<[key := EmptyString]> (files (snd s))) w))
  end.

(** [f.write(data)] on the open file [key] *)
Definition write (key data : string) : M unit :=
  modify_world (fun w =>
    set_files (<[key := default EmptyString (files w !! key) +:+ data]> (files w)) w).

(** [datetime.datetime.now().strftime("%H_%M_%S_%b_%d_%Y")] *)
Definition strftime_now : M string := fun s =>
  let w := snd s in
  (clock w (ticks w), (fst s, set_ticks (S (ticks w)) w)).

(** What a value holds at the moment: [Some None] for [None], [Some (Some o)]
    for an object holding [o].  A reference to no object answers [None];
    the operations below never hand one out. *)
Definition snapshot (h : gmap loc obj) (v : pyval) : option (option obj) :=
  match v with
  | PyNone => Some None
  | PyRef l =>
      match h !! l with
      | Some o => Some (Some o)
      | None => None
      end
  end.

(** A new object holding [o] *)
Definition alloc_in (o : obj) (w : world) : pyval * world :=
  let l := fresh (dom (heap w)) in
  (PyRef l, set_heap (<[l := o]> (heap w)) w).

Definition alloc (o : obj) : M pyval := fun s =>
  let (v, w) := alloc_in o (snd s) in (Ok v, (fst s, w)).

(** [pickle.dump(v, f)], [f] the open file [key] *)
Definition pickle_dump (v : pyval) (key : string) : M unit :=
  w <- get_world ;;
  match snapshot (heap w) v with
  | Some snap =>
      match pickle_dumps snap with
      | Some bytes => write key bytes
      | None => write key (pickle_partial snap) ;;; raise (pickle_refusal snap)
      end
  | None => raise PicklingError
  end.

(** [pickle.load(f)], [f] holding [bytes]: [None] itself or a new object
    for a pickle by value, the object named for a pickle by reference *)
Definition pickle_load (bytes : string) : M pyval :=
  match pickle_loads bytes with
  | Some None => ret PyNone
  | Some (Some o) => alloc o
  | None =>
      match unpickle_global bytes with
      | Some l => ret (PyRef l)
      | None => raise (unpickle_refusal bytes)
      end
  end.

(** [self.database_creator()] *)
Definition call_database_creator : M pyval := fun s =>
  let (r, w) := database_creator (fst s) (snd s) in (r, (fst s, w)).

(** ** The class *)

(** [lambda: {}], the default of [database_creator] *)
Definition default_database_creator (w : world) : result pyval * world :=
  let (v, w') := alloc_in empty_dict w in (Ok v, w').

Definition default_save_folder : string := "database".
Definition default_most_recent_save_file : string := "_most_recent_save.txt".

(** The fields [DatabaseInterface.__init__] assigns *)
Definition new_store (save_folder : string)
    (database_creator : world → result pyval * world)
    (most_recent_save_file : string) : DatabaseInterface :=
  Store save_folder database_creator most_recent_save_file
        (path_join save_folder most_recent_save_file) PyNone.

(** [DatabaseInterface.__init__]: the new store, or the exception of
    [os.mkdir] *)
Definition init (save_folder : string)
    (database_creator : world → result pyval * world)
    (most_recent_save_file : string) (w : world)
    : result DatabaseInterface * world :=
  let self := new_store save_folder database_creator most_recent_save_file in
  if os_isdir (dirs w) (dom (files w)) save_folder then (Ok self, w)
  else
    match os_mkdir_refusal (dirs w) (dom (files w)) save_folder with
    | Some e => (Raise e, w)
    | None =>
        (Ok self,
         set_stdout
           (stdout w ++
              ["Save folder not found! A save folder named '" +:+ save_folder
                 +:+ "' was created instead."])
           (set_dirs ({[save_folder]} ∪ dirs w) w))
    end.

(** [DatabaseInterface.load] *)
Definition load : M pyval :=
  (try_except
     (self <- get_self ;;
      text <- open_read (exact_most_recent_save_file self) ;;
      let database_file := strip (readline text) in
      if is_empty database_file then
        raise (FileNotFoundError "No file was found in the most recent save file")
      else
        try_except
          (bytes <- open_read database_file ;;
           v <- pickle_load bytes ;;
           assign_database v ;;;
           print ("Loaded database from " +:+ database_file))
          is_FileNotFoundError
          (fun _ =>
             raise (RuntimeError ("Most recent save file " +:+ repr database_file
                                    +:+ " could not be found"))))
     is_FileNotFoundError
     (fun _ =>
        print "Database not loaded - blank database created" ;;;
        v <- call_database_creator ;;
        assign_database v)) ;;;
  self <- get_self ;;
  ret (_database self).

(** [DatabaseInterface.expose] *)
Definition expose : M pyval :=
  self <- get_self ;;
  if is_None (_database self) then raise NoDatabaseError
  else ret (_database self).

(** [DatabaseInterface.expose_or_load] *)
Definition expose_or_load : M pyval :=
  try_except expose is_NoDatabaseError (fun _ => load).

(** The path of the Save Record for the time stamp [stamp] *)
Definition save_file_of (self : DatabaseInterface) (stamp : string) : string :=
  normpath (path_join (save_folder self) ("db_sv_" +:+ stamp +:+ ".pkl")).

(** [DatabaseInterface.save]; [database] is [PyNone] when the argument is
    left out, its default. *)
Definition save (database : pyval) : M unit :=
  (if is_None database then ret tt else assign_database database) ;;;
  self <- get_self ;;
  if is_None (_database self) then raise NoDatabaseError
  else
    formatted_date_and_time <-
      try_except strftime_now is_Exception
        (fun _ => print "Failed to obtain formatted date and time!" ;;;
                  ret "UnknownTime") ;;
    let save_file := save_file_of self formatted_date_and_time in
    open_save_file <- open_write save_file ;;
    pickle_dump (_database self) open_save_file ;;;
    open_exact_most_recent_save_file <-
      open_write (exact_most_recent_save_file self) ;;
    write open_exact_most_recent_save_file save_file ;;;
    print ("Database saved at: " +:+ save_file).

End Store.

(** ** Generators and [contextlib.contextmanager] *)

Section Generators.
Context `{PyRuntime}.

(** A generator body: it ends (returns or raises), calls into the store, or
    yields a value and waits to be resumed.  It is resumed with [None] by
    [next] and with [Some e] by [throw(e)]. *)
Inductive gen (A : Type) : Type :=
| GDone (r : result A)
| GAct {B : Type} (m : M B) (k : result B → gen A)
| GYield (v : pyval) (k : option exn → gen A).
Arguments GDone {A} r.
Arguments GAct {A B} m k.
Arguments GYield {A} v k.

Definition call {A} (m : M A) : gen A := GAct m GDone.

(** [yield v]: [throw(e)] raises [e] at the [yield] *)
Definition yield_ (v : pyval) : gen unit :=
  GYield v (fun sent =>
    match sent with
    | None => GDone (Ok tt)
    | Some e => GDone (Raise e)
    end).

Fixpoint gbind {A B} (g : gen A) (k : A → gen B) : gen B :=
  match g with
  | GDone (Ok a) => k a
  | GDone (Raise e) => GDone (Raise e)
  | GAct m c => GAct m (fun r => gbind (c r) k)
  | GYield v c => GYield v (fun sent => gbind (c sent) k)
  end.

(** [try: g except E: h e] around a block that may yield *)
Fixpoint gtry_except {A} (g : gen A) (catches : exn → bool) (h : exn → gen A) : gen A :=
  match g with
  | GDone (Raise e) => if catches e then h e else GDone (Raise e)
  | GDone (Ok a) => GDone (Ok a)
  | GAct m c => GAct m (fun r => gtry_except (c r) catches h)
  | GYield v c => GYield v (fun sent => gtry_except (c sent) catches h)
  end.

(** [try: g finally: fin]: [fin] runs however [g] ends, and an exception of
    [fin] replaces the outcome of [g]. *)
Fixpoint gtry_finally {A} (g : gen A) (fin : M unit) : gen A :=
  match g with
  | GDone r =>
      GAct fin (fun rf =>
        match rf with
        | Ok _ => GDone r
        | Raise e => GDone (Raise e)
        end)
  | GAct m c => GAct m (fun r => gtry_finally (c r) fin)
  | GYield v c => GYield v (fun sent => gtry_finally (c sent) fin)
  end.

(** [DatabaseInterface.load_then_save] *)
Definition load_then_save : gen unit :=
  gtry_finally
    (gtry_except
       (gbind (call load) (fun _ =>
        gbind (call get_self) (fun self =>
        yield_ (_database self))))
       is_Exception
       (fun e => GDone (Raise e)))
    (save PyNone).

(** [DatabaseInterface.expose_or_load_then_save].  The local
    [database_exists] is [False] exactly when the handler of
    [NoDatabaseError] ran, that is when [self.expose_or_load()] raised it;
    the [finally] block reads it. *)
Definition expose_or_load_then_save : gen unit :=
  GAct expose_or_load (fun entered =>
    let database_exists :=
      match entered with
      | Raise e => negb (is_NoDatabaseError e)
      | Ok _ => true
      end in
    gtry_finally
      (match entered with
       | Raise e => GDone (Raise e)
       | Ok _ => gbind (call get_self) (fun self => yield_ (_database self))
       end)
      (if database_exists then save PyNone else ret tt)).

(** Running a generator up to its next [yield] or its end *)
Inductive progress (A : Type) : Type :=
| Finished (r : result A)
| Suspended (v : pyval) (k : option exn → gen A).
Arguments Finished {A} r.
Arguments Suspended {A} v k.

Fixpoint advance {A} (g : gen A) (s : state) : progress A * state :=
  match g with
  | GDone r => (Finished r, s)
  | GAct m k => let (r, s') := m s in advance (k r) s'
  | GYield v k => (Suspended v k, s)
  end.

(** [with cm as v: body v], [cm] made by [contextmanager] from the generator
    [g].  [__enter__] runs [g] to its [yield]; [__exit__] resumes it with
    [next] when the body ended and with [throw] when the body raised.  A
    generator that ends quietly after [throw] swallows the exception. *)
Definition with_ (g : gen unit) (body : pyval → M unit) : M unit := fun s =>
  match advance g s with
  | (Finished (Raise e), s1) => (Raise e, s1)
  | (Finished (Ok _), s1) => (Raise (RuntimeError "generator didn't yield"), s1)
  | (Suspended v k, s1) =>
      match body v s1 with
      | (Ok _, s2) =>
          match advance (k None) s2 with
          | (Finished r, s3) => (r, s3)
          | (Suspended _ _, s3) => (Raise (RuntimeError "generator didn't stop"), s3)
          end
      | (Raise e, s2) =>
          match advance (k (Some e)) s2 with
          | (Finished r, s3) => (r, s3)
          | (Suspended _ _, s3) =>
              (Raise (RuntimeError "generator didn't stop after throw()"), s3)
          end
      end
  end.

(** ** Caller code used in the statements *)

(** The caller changes the object it was handed in place, as [db[k] = x]
    does; on [None] that is a [TypeError]. *)
Definition update_in_place (f : obj → obj) (v : pyval) : M unit :=
  match v with
  | PyNone => raise TypeError
  | PyRef l => modify_world (fun w => set_heap (alter f l (heap w)) w)
  end.

(** The body of a [with] block that changes the value and then raises *)
Definition mutate_then_raise (f : obj → obj) (e : exn) (v : pyval) : M unit :=
  update_in_place f v ;;; raise e.


End Generators.

Arguments GDone {_ A} r.
Arguments GAct {_ A B} m k.
Arguments GYield {_ A} v k.
Arguments Finished {_ A} r.
Arguments Suspended {_ A} v k.

(** ** Notions used in the statements *)

Section Notions.
Context `{PyRuntime}.

(** The store keeps the pointer path the constructor computed. *)
Definition constructed (self : DatabaseInterface) : Prop :=
  exact_most_recent_save_file self
  = path_join (save_folder self) (most_recent_save_file self).

(** [self'] has the folder, the factory and the pointer file of [self]. *)
Definition configured_as (self self' : DatabaseInterface) : Prop :=
  save_folder self' = save_folder self
  ∧ database_creator self' = database_creator self
  ∧ most_recent_save_file self' = most_recent_save_file self
  ∧ exact_most_recent_save_file self' = exact_most_recent_save_file self.

(** A computation that leaves the configuration of the store alone *)
Definition keeps_configuration {A} (m : M A) : Prop :=
  ∀ s, configured_as s.1 (m s).2.1.

(** The time stamp the next [save] uses in [w] and what it prints on the
    way; [None] when the clock raises past [except Exception]. *)
Definition stamp_in (w : world) : option (string * list string) :=
  match clock w (ticks w) with
  | Ok t => Some (t, [])
  | Raise e =>
      if is_Exception e
      then Some ("UnknownTime", ["Failed to obtain formatted date and time!"])
      else None
  end.



(** A path that the pointer file gives back as it was written: not empty,
    one line, no white space at either end. *)
Definition reads_back (path : string) : Prop :=
  strip (readline path) = path ∧ is_empty path = false.

(** [open(path, mode)] names the file [key] with the directories of [w],
    whatever regular files there are. *)
Definition names (w : world) (mode : io_mode) (path key : string) : Prop :=
  ∀ present, os_locate (dirs w) present mode path = Ok key.

(** [path] names the file [key], to read and to write. *)
Definition opens_as (w : world) (path key : string) : Prop :=
  names w Reading path key ∧ names w Writing path key.

(** [open(path, "r")] raises [FileNotFoundError]: a part of [path] is not
    there. *)
Definition missing (w : world) (path : string) : Prop :=
  ∃ e, read_file w path = Raise e ∧ is_FileNotFoundError e = true.

(** The world after a successful [save]: the record, named [p], is the
    file [kr] and holds [bytes]; the pointer file, named [pointer], is the
    file [kp] and holds [p]. *)
Definition saved_world (w : world) (pointer kp p kr bytes : string)
    (out : list string) : world :=
  World (heap w)
        (<[kp := p]> (<[kr := bytes]> (files w)))
        (dirs w)
        ((stdout w ++ out) ++ ["Database saved at: " +:+ p])
        (OpenWrite pointer :: OpenWrite p :: io_log w)
        (clock w)
        (S (ticks w)).

(** The world with the [open] calls [ev] added to the log *)
Definition logged (ev : list io_event) (w : world) : world :=
  set_io_log (ev ++ io_log w) w.

(** There is no pointer file, or its first line is all white space. *)
Definition no_prior_database (self : DatabaseInterface) (w : world) : Prop :=
  missing w (exact_most_recent_save_file self)
  ∨ ∃ text, read_file w (exact_most_recent_save_file self) = Ok text
            ∧ only_whitespace (readline text) = true.

(** The world in which [load] calls the factory: the pointer file was
    opened and the notice printed. *)
Definition before_creator (self : DatabaseInterface) (w : world) : world :=
  set_stdout (stdout w ++ ["Database not loaded - blank database created"])
             (logged [OpenRead (exact_most_recent_save_file self)] w).

(** How many of the [open] calls in a log were for reading *)
Fixpoint count_reads (lg : list io_event) : nat :=
  match lg with
  | [] => 0
  | OpenRead _ :: rest => S (count_reads rest)
  | OpenWrite _ :: rest => count_reads rest
  end.

(** The files opened for reading between two worlds *)
Definition reads_between (before after : world) : nat :=
  count_reads (io_log after) - count_reads (io_log before).

(** What the value a call returned holds, when the call returned one *)
Definition returned_snapshot (r : result pyval * state) : option (option obj) :=
  match r.1 with
  | Ok v => snapshot (heap r.2.2) v
  | Raise _ => None
  end.

(** What [load()] returns on a store newly constructed in [w] over the
    folder and the pointer file name of [self] *)
Definition load_afresh (self : DatabaseInterface)
    (creator : world → result pyval * world) (w : world) : option (option obj) :=
  match init (save_folder self) creator (most_recent_save_file self) w with
  | (Ok fresh_store, w') => returned_snapshot (load (fresh_store, w'))
  | (Raise _, _) => None
  end.

(** [save(v)] from [(self, w)], then [load()] on a store newly constructed
    over the same folder and pointer file name, returns a value that holds
    what [v] held. *)
Definition round_trips (self : DatabaseInterface) (w : world) (v : pyval)
    (creator : world → result pyval * world) : Prop :=
  ∀ snap s1,
    snapshot (heap w) v = Some snap →
    serializable snap →
    save v (self, w) = (Ok tt, s1) →
    load_afresh self creator s1.2 = Some snap.





(** A call of [expose_or_load] from [s] opens at most one file to read. *)
Definition at_most_one_read (s : state) : Prop :=
  (reads_between s.2 (expose_or_load s).2.2 ≤ 1)%nat.

End Notions.

(** ** The demonstration script and further notions *)

Section Script.
Context `{PyRuntime}.

(** The claim about a scope entered when no database has ever existed, at
    one state: with nothing resident and no pointer file to be found, the
    scope raises and leaves the files as they were. *)
Definition refuses_without_database (s : state) (body : pyval → M unit) : Prop :=
  _database s.1 = PyNone →
  missing s.2 (exact_most_recent_save_file s.1) →
  ∃ e s', with_ expose_or_load_then_save body s = (Raise e, s')
          ∧ files s'.2 = files s.2.

(** The claim about a body that changes the loaded object and raises [e],
    at one state: the scope raises [e]. *)
Definition raises_what_the_body_raised (s : state) (f : obj → obj) (e : exn)
    : Prop :=
  ∀ l s1, load s = (Ok (PyRef l), s1) →
    ∃ s', with_ load_then_save (mutate_then_raise f e) s = (Raise e, s').

(** The world after a [save] that read the clock and could not open the
    record file, named [p] *)
Definition record_refused (w : world) (p : string) (out : list string) : world :=
  World (heap w)
        (files w)
        (dirs w)
        (stdout w ++ out)
        (OpenWrite p :: io_log w)
        (clock w)
        (S (ticks w)).

(** The world after a [save] that read the clock and opened the record file,
    named [p], the file [k], and then failed to pickle: the record file is
    there and holds [partial], the pointer file is as it was. *)
Definition truncated_world (w : world) (p k partial : string) (out : list string)
    : world :=
  World (heap w)
        (<[k := partial]> (files w))
        (dirs w)
        (stdout w ++ out)
        (OpenWrite p :: io_log w)
        (clock w)
        (S (ticks w)).

(** Whether pickling the object at [l] fails: there is no such object, or
    [pickle.dump] refuses what it holds; what it has written by then and
    what it raises. *)
Definition cannot_pickle (h : gmap loc obj) (l : loc) : Prop :=
  match h !! l with
  | Some o => pickle_dumps (Some o) = None
  | None => True
  end.

Definition partial_pickle (h : gmap loc obj) (l : loc) : string :=
  match h !! l with
  | Some o => pickle_partial (Some o)
  | None => EmptyString
  end.

Definition pickling_refusal (h : gmap loc obj) (l : loc) : exn :=
  match h !! l with
  | Some o => pickle_refusal (Some o)
  | None => PicklingError
  end.

(** [print(v)], [str_of] rendering what the value holds *)
Definition print_value (str_of : option obj → string) (v : pyval) : M unit :=
  w <- get_world ;;
  match snapshot (heap w) v with
  | Some snap => print (str_of snap)
  | None => raise (OtherException "ReferenceError")
  end.

(** The statements under [if __name__ == "__main__"] that follow the
    constructor call.  [setitem k x] is what [db[k] = x] does to the content
    of a dictionary and [str_of] is [str]. *)
Definition main_statements (setitem : string → string → obj → obj)
    (str_of : option obj → string) : M unit :=
  db <- load ;;
  print_value str_of db ;;;
  update_in_place (setitem "wow" "haha") db ;;;
  print_value str_of db ;;;
  save db ;;;
  with_ load_then_save
    (fun db =>
       print_value str_of db ;;;
       update_in_place (setitem "hi" "yay") db).

(** The block under [if __name__ == "__main__"], run in the world [w]; the
    answer is the store [database_interface] it ends with. *)
Definition main (setitem : string → string → obj → obj)
    (str_of : option obj → string) (w : world)
    : result DatabaseInterface * world :=
  match init "testing_database_interface" default_database_creator
             default_most_recent_save_file w with
  | (Raise e, w') => (Raise e, w')
  | (Ok database_interface, w') =>
      let run := main_statements setitem str_of (database_interface, w') in
      (match run.1 with
       | Ok _ => Ok run.2.1
       | Raise e => Raise e
       end,
       run.2.2)
  end.

(** No file that is there before is missing after. *)
Definition no_file_lost (before after : world) : Prop :=
  ∀ q, is_Some (files before !! q) → is_Some (files after !! q).

End Script.

(** ** One runtime, for the examples

    Dictionaries from strings to strings, kept in insertion order; a pickle
    that writes one entry per line, the key and the value separated by a
    tab, and refuses a key or value that holds a tab or a line end; POSIX
    paths, relative to one working directory, where a file is known by its
    normal path. *)

Definition TAB : ascii := ascii_of_nat 9.

Fixpoint split_on (sep : ascii) (s : string) : list string :=
  match s with
  | EmptyString => [EmptyString]
  | String c r =>
      if decide (c = sep) then EmptyString :: split_on sep r
      else
        match split_on sep r with
        | h :: t => String c h :: t
        | [] => [String c EmptyString]
        end
  end.

Fixpoint join_with (sep : string) (parts : list string) : string :=
  match parts with
  | [] => EmptyString
  | [p] => p
  | p :: rest => p +:+ sep +:+ join_with sep rest
  end.

Fixpoint plain (s : string) : bool :=
  match s with
  | EmptyString => true
  | String c r =>
      negb (bool_decide (c = TAB)) && negb (bool_decide (c = LF))
        && negb (bool_decide (c = CR)) && plain r
  end.

Definition demo_obj : Type := list (string * string).

Definition demo_dumps (snap : option demo_obj) : option string :=
  match snap with
  | None => Some "N"
  | Some kvs =>
      if forallb (fun kv => plain (fst kv) && plain (snd kv)) kvs then
        Some ("D" +:+ String.concat EmptyString
                (map (fun kv => fst kv +:+ String TAB (snd kv +:+ String LF EmptyString)) kvs))
      else None
  end.

Fixpoint demo_entries (lines : list string) : option demo_obj :=
  match lines with
  | [] => None
  | [last] => if is_empty last then Some [] else None
  | line :: rest =>
      match split_on TAB line with
      | [k; v] => cons (k, v) <$> demo_entries rest
      | _ => None
      end
  end.

Definition demo_loads (bytes : string) : option (option demo_obj) :=
  match bytes with
  | String c rest =>
      if decide (c = "N"%char) then
        if is_empty rest then Some None else None
      else if decide (c = "D"%char) then Some <$> demo_entries (split_on LF rest)
      else None
  | EmptyString => None
  end.

Fixpoint ends_with_slash (s : string) : bool :=
  match s with
  | EmptyString => false
  | String c EmptyString => bool_decide (c = "/"%char)
  | String _ r => ends_with_slash r
  end.

(** [posixpath.join] for two components *)
Definition posix_join (a b : string) : string :=
  match b with
  | String "/"%char _ => b
  | _ => if is_empty a || ends_with_slash a then a +:+ b else a +:+ "/" +:+ b
  end.

(** The loop of [posixpath.normpath]; [kept] is [new_comps], last first *)
Fixpoint normpath_comps (rooted : bool) (comps kept : list string) : list string :=
  match comps with
  | [] => rev kept
  | comp :: rest =>
      if bool_decide (comp = EmptyString) || bool_decide (comp = ".") then
        normpath_comps rooted rest kept
      else if negb (bool_decide (comp = ".."))
              || (negb rooted && bool_decide (kept = []))
              || bool_decide (head kept = Some "..") then
        normpath_comps rooted rest (comp :: kept)
      else normpath_comps rooted rest (tail kept)
  end.

Definition initial_slashes (path : string) : string :=
  match path with
  | String "/"%char (String "/"%char (String "/"%char _)) => "/"
  | String "/"%char (String "/"%char _) => "//"
  | String "/"%char _ => "/"
  | _ => EmptyString
  end.

(** [posixpath.normpath] *)
Definition posix_normpath (path : string) : string :=
  if is_empty path then "."
  else
    let slashes := initial_slashes path in
    let comps :=
      normpath_comps (negb (is_empty slashes)) (split_on "/"%char path) [] in
    let out := slashes +:+ join_with "/" comps in
    if is_empty out then "." else out.

(** [repr] of a string, right when it holds no quote, backslash or control
    character *)
Definition plain_repr (s : string) : string := "'" +:+ s +:+ "'".

(** The part of a normal path before its last component; empty for the
    working directory *)
Definition posix_dirname (path : string) : string :=
  match rev (split_on "/"%char path) with
  | _ :: (_ :: _) as parents => join_with "/" (rev parents)
  | _ => EmptyString
  end.

(** Whether the normal path [q] is a directory: the working directory, or
    one of [dirs] *)
Definition directory_there (dirs : gset string) (q : string) : bool :=
  is_empty q || bool_decide (q = ".")
  || bool_decide (q ∈ (set_map posix_normpath dirs : gset string)).

Definition demo_isdir (dirs present : gset string) (path : string) : bool :=
  negb (is_empty path) && directory_there dirs (posix_normpath path).

Definition demo_mkdir_refusal (dirs present : gset string) (path : string)
    : option exn :=
  if is_empty path then Some (FileNotFoundError path)
  else
    let q := posix_normpath path in
    if directory_there dirs q || bool_decide (q ∈ present)
    then Some (FileExistsError path)
    else if directory_there dirs (posix_dirname q) then None
    else if bool_decide (posix_dirname q ∈ present)
    then Some (NotADirectoryError path)
    else Some (FileNotFoundError path).

Definition demo_locate (dirs present : gset string) (mode : io_mode)
    (path : string) : result string :=
  if is_empty path then Raise (FileNotFoundError path)
  else
    let q := posix_normpath path in
    if directory_there dirs q then Raise (IsADirectoryError path)
    else if directory_there dirs (posix_dirname q) then Ok q
    else if bool_decide (posix_dirname q ∈ present)
    then Raise (NotADirectoryError path)
    else Raise (FileNotFoundError path).

Definition demo_runtime : PyRuntime := {|
  obj := demo_obj;
  empty_dict := [];
  pickle_dumps := demo_dumps;
  pickle_partial := fun _ => "D";
  pickle_refusal := fun _ => PicklingError;
  pickle_loads := demo_loads;
  unpickle_global := fun _ => None;
  unpickle_refusal := fun bytes => if is_empty bytes then EOFError else UnpicklingError;
  path_join := posix_join;
  normpath := posix_normpath;
  repr := plain_repr;
  os_isdir := demo_isdir;
  os_mkdir_refusal := demo_mkdir_refusal;
  os_locate := demo_locate
|}.

(** A clock that reads [stamps] in order and fails afterwards *)
Definition clock_of (stamps : list string) (n : nat) : result string :=
  match stamps !! n with
  | Some t => Ok t
  | None => Raise (OtherException "OSError")
  end.

(** A disk with the files [fs] and the directory ["database"], no object
    allocated yet *)
Definition demo_world (fs : list (string * string)) (stamps : list string)
    : @world demo_runtime :=
  World (H := demo_runtime) ∅ (list_to_map fs) {["database"]} [] []
        (clock_of stamps) 0.

(** [DatabaseInterface()] with every default, constructed in a world that
    has the folder *)
Definition demo_store (w : @world demo_runtime) : @state demo_runtime :=
  (new_store (H := demo_runtime) default_save_folder default_database_creator
             default_most_recent_save_file,
   w).

(** A factory that returns [None], one that refuses to make a database *)
Definition none_creator (w : @world demo_runtime) : result pyval * @world demo_runtime :=
  (Ok PyNone, w).

Definition refusing_creator (w : @world demo_runtime)
    : result pyval * @world demo_runtime :=
  (Raise NoDatabaseError, w).

(** A store with every default that holds the object [1], a dictionary with
    the entries [o], on an empty disk *)
Definition demo_held (folder name : string) (o : demo_obj) (stamps : list string)
    : @state demo_runtime :=
  let w := World (H := demo_runtime) {[1%positive := o]} ∅ {[folder]} [] []
                 (clock_of stamps) 0 in
  (set_database (H := demo_runtime) (PyRef 1%positive)
     (new_store (H := demo_runtime) folder default_database_creator name),
   w).

Definition one : loc := 1%positive.

(** A disk where the pointer file names a record: the record is there and
    holds the empty dictionary, or it is not there *)
Definition warm_disk : list (string * string) :=
  [("database/_most_recent_save.txt", "database/db_sv_12_00_00_Jan_01_2026.pkl");
   ("database/db_sv_12_00_00_Jan_01_2026.pkl", "D")].

Definition dangling_disk : list (string * string) :=
  [("database/_most_recent_save.txt", "database/db_sv_12_00_00_Jan_01_2026.pkl")].

(** [db["wow"] = "haha"] on a dictionary without that key *)
Definition set_wow (o : demo_obj) : demo_obj := (o ++ [("wow", "haha")])%list.

Definition demo_pointer : string := "database/_most_recent_save.txt".
Definition noon : string := "12_00_00_Jan_01_2026".
Definition demo_record : string := "database/db_sv_12_00_00_Jan_01_2026.pkl".
Definition a_second_later : string := "12_00_01_Jan_01_2026".
Definition later_record : string := "database/db_sv_12_00_01_Jan_01_2026.pkl".



(** A store with every default that holds the object [1], on the disk [fs] *)
Definition demo_held_on (fs : list (string * string)) (o : demo_obj)
    (clk : nat → result string) : @state demo_runtime :=
  let w := World (H := demo_runtime) {[1%positive := o]} (list_to_map fs)
                 {["database"]} [] [] clk 0 in
  (set_database (H := demo_runtime) (PyRef 1%positive)
     (new_store (H := demo_runtime) default_save_folder default_database_creator
                default_most_recent_save_file),
   w).

(** A dictionary the example pickle refuses: its key holds a tab *)
Definition unpicklable : demo_obj := [(String TAB "key", "value")].

(** [db[k] = x] on a dictionary kept in insertion order *)
Fixpoint demo_setitem (k x : string) (o : demo_obj) : demo_obj :=
  match o with
  | [] => [(k, x)]
  | (k', x') :: rest =>
      if decide (k' = k) then (k, x) :: rest
      else (k', x') :: demo_setitem k x rest
  end.

(** A plain rendering of a value, in the place of [str] *)
Definition demo_str (snap : option demo_obj) : string :=
  match snap with
  | None => "None"
  | Some kvs =>
      "{" +:+ join_with ", " (map (fun kv => fst kv +:+ ": " +:+ snd kv) kvs) +:+ "}"
  end.

(** * Properties *)

(** ** White space *)

Lemma lstrip_only_whitespace s : only_whitespace (lstrip s) = only_whitespace s.
Proof.
  induction s as [|c r IH]; [done|]. simpl.
  destruct (is_space c) eqn:Hc; simpl; [done|]. by rewrite Hc.
Qed.

Lemma rstrip_is_empty s : is_empty (rstrip s) = only_whitespace s.
Proof.
  induction s as [|c r IH]; [done|]. simpl.
  destruct (rstrip r) eqn:Hr; simpl in *.
  - rewrite <- IH. destruct (is_space c); done.
  - rewrite <- IH. by rewrite andb_false_r.
Qed.

Lemma strip_is_empty s : is_empty (strip s) = only_whitespace s.
Proof. unfold strip. by rewrite rstrip_is_empty, lstrip_only_whitespace. Qed.

Lemma outcome_eta {A B} (x : A * B) (a : A) : x.1 = a → x = (a, x.2).
Proof. destruct x; simpl; by intros ->. Qed.

Section Properties.
Context `{PyRuntime}.

Implicit Types (self : DatabaseInterface) (w : world) (s : state) (v : pyval).

Lemma world_eq w1 w2 :
  heap w1 = heap w2 → files w1 = files w2 → dirs w1 = dirs w2 →
  stdout w1 = stdout w2 → io_log w1 = io_log w2 → clock w1 = clock w2 →
  ticks w1 = ticks w2 → w1 = w2.
Proof. destruct w1, w2; simpl; intros; by subst. Qed.

(** ** The configuration of a store never changes *)

Lemma new_store_constructed folder creator name :
  constructed (new_store folder creator name).
Proof. reflexivity. Qed.

Lemma init_Ok_inv folder creator name w self' w' :
  init folder creator name w = (Ok self', w') →
  self' = new_store folder creator name
  ∧ heap w' = heap w ∧ files w' = files w ∧ io_log w' = io_log w
  ∧ clock w' = clock w ∧ ticks w' = ticks w.
Proof.
  unfold init. intros Hinit.
  destruct (os_isdir _ _ _); [by simplify_eq|].
  destruct (os_mkdir_refusal _ _ _); by simplify_eq.
Qed.

Lemma init_there folder creator name w :
  os_isdir (dirs w) (dom (files w)) folder = true →
  init folder creator name w = (Ok (new_store folder creator name), w).
Proof. unfold init. by intros ->. Qed.

Lemma configured_as_refl self : configured_as self self.
Proof. by repeat split. Qed.

Lemma configured_as_trans self1 self2 self3 :
  configured_as self1 self2 → configured_as self2 self3 →
  configured_as self1 self3.
Proof.
  intros (? & ? & ? & ?) (? & ? & ? & ?). repeat split; congruence.
Qed.

Lemma constructed_configured_as self self' :
  configured_as self self' → constructed self → constructed self'.
Proof. unfold constructed. intros (-> & _ & -> & ->). done. Qed.

Lemma keeps_ret {A} (a : A) : keeps_configuration (ret a).
Proof. intros s. apply configured_as_refl. Qed.

Lemma keeps_raise {A} e : keeps_configuration (@raise _ A e).
Proof. intros s. apply configured_as_refl. Qed.

Lemma keeps_bind {A B} (m : M A) (k : A → M B) :
  keeps_configuration m → (∀ a, keeps_configuration (k a)) →
  keeps_configuration (bind m k).
Proof.
  intros Hm Hk s. unfold bind. specialize (Hm s).
  destruct (m s) as [[a|e] s1]; [|done].
  eapply configured_as_trans; [exact Hm|apply Hk].
Qed.

Lemma keeps_try_except {A} (m : M A) catches h :
  keeps_configuration m → (∀ e, keeps_configuration (h e)) →
  keeps_configuration (try_except m catches h).
Proof.
  intros Hm Hh s. unfold try_except. specialize (Hm s).
  destruct (m s) as [[a|e] s1]; [done|].
  destruct (catches e); [|done].
  eapply configured_as_trans; [exact Hm|apply Hh].
Qed.

Lemma keeps_get_self : keeps_configuration get_self.
Proof. intros s. apply configured_as_refl. Qed.

Lemma keeps_get_world : keeps_configuration get_world.
Proof. intros s. apply configured_as_refl. Qed.

Lemma keeps_modify_world f : keeps_configuration (modify_world f).
Proof. intros s. apply configured_as_refl. Qed.

Lemma keeps_assign_database v : keeps_configuration (assign_database v).
Proof. intros s. by repeat split. Qed.

Lemma keeps_open_read path : keeps_configuration (open_read path).
Proof.
  intros s. apply configured_as_refl.
Qed.

Lemma keeps_open_write path : keeps_configuration (open_write path).
Proof.
  intros s. unfold open_write. cbn zeta.
  destruct (locate _ _ _); apply configured_as_refl.
Qed.

Lemma keeps_strftime_now : keeps_configuration strftime_now.
Proof. intros s. apply configured_as_refl. Qed.

Lemma keeps_alloc o : keeps_configuration (alloc o).
Proof. intros s. apply configured_as_refl. Qed.

Lemma keeps_call_database_creator : keeps_configuration call_database_creator.
Proof.
  intros s. unfold call_database_creator.
  destruct (database_creator s.1 s.2). apply configured_as_refl.
Qed.

Ltac keeps :=
  repeat first
    [ apply keeps_ret | apply keeps_raise | apply keeps_get_self
    | apply keeps_get_world | apply keeps_modify_world
    | apply keeps_assign_database | apply keeps_open_read
    | apply keeps_open_write
    | apply keeps_strftime_now | apply keeps_alloc
    | apply keeps_call_database_creator
    | apply keeps_bind; [|intros ?]
    | apply keeps_try_except; [|intros ?]
    | progress cbv zeta
    | case_match ].

Lemma load_keeps_configuration : keeps_configuration load.
Proof. unfold load, print, pickle_load. keeps. Qed.

Lemma save_keeps_configuration database : keeps_configuration (save database).
Proof. unfold save, pickle_dump, write, print. keeps. Qed.

Lemma expose_or_load_keeps_configuration : keeps_configuration expose_or_load.
Proof.
  apply keeps_try_except; [unfold expose; keeps|].
  intros _. apply load_keeps_configuration.
Qed.

(** ** Reading a file *)

Lemma read_file_same w w' path :
  dirs w' = dirs w → files w' = files w → read_file w' path = read_file w path.
Proof. unfold read_file, locate. by intros -> ->. Qed.

Lemma read_file_there w path key content :
  locate w Reading path = Ok key → files w !! key = Some content →
  read_file w path = Ok content.
Proof. unfold read_file. by intros -> ->. Qed.

(** ** What [load] does, case by case *)

(** Every way [load] goes: by what reading the pointer file gives, then by
    what reading the record gives, then by the bytes of the record. *)
Lemma load_cases self w :
  load (self, w) =
    let pointer := exact_most_recent_save_file self in
    let cold :=
      match database_creator self (before_creator self w) with
      | (Ok v, w2) => (Ok v, (set_database v self, w2))
      | (Raise e, w2) => (Raise e, (self, w2))
      end in
    match read_file w pointer with
    | Raise e =>
        if is_FileNotFoundError e then cold
        else (Raise e, (self, logged [OpenRead pointer] w))
    | Ok text =>
        if only_whitespace (readline text) then cold
        else
          let database_file := strip (readline text) in
          let w1 := logged [OpenRead database_file; OpenRead pointer] w in
          let said := ["Loaded database from " +:+ database_file] in
          let not_found :=
            RuntimeError ("Most recent save file " +:+ repr database_file
                            +:+ " could not be found") in
          match read_file w database_file with
          | Raise e =>
              (Raise (if is_FileNotFoundError e then not_found else e), (self, w1))
          | Ok bytes =>
              match pickle_loads bytes with
              | Some None =>
                  (Ok PyNone,
                   (set_database PyNone self, set_stdout (stdout w ++ said) w1))
              | Some (Some o) =>
                  let l := fresh (dom (heap w)) in
                  (Ok (PyRef l),
                   (set_database (PyRef l) self,
                    set_stdout (stdout w ++ said)
                               (set_heap (<[l := o]> (heap w)) w1)))
              | None =>
                  match unpickle_global bytes with
                  | Some l =>
                      (Ok (PyRef l),
                       (set_database (PyRef l) self,
                        set_stdout (stdout w ++ said) w1))
                  | None =>
                      (Raise (if is_FileNotFoundError (unpickle_refusal bytes)
                              then not_found else unpickle_refusal bytes),
                       (self, w1))
                  end
              end
          end
    end.
Proof.
  unfold load, bind, try_except, open_read, get_self; cbn -[read_file].
  destruct (read_file w _) as [text|e] eqn:Hp; cbn -[read_file].
  - rewrite strip_is_empty.
    destruct (only_whitespace (readline text)) eqn:Hws; cbn -[read_file].
    + unfold call_database_creator; cbn.
      destruct (database_creator self _) as [[v|e] w2]; reflexivity.
    + rewrite (read_file_same w) by reflexivity.
      destruct (read_file w (strip (readline text))) as [bytes|e] eqn:Hrec;
        cbn -[read_file].
      * unfold pickle_load.
        destruct (pickle_loads bytes) as [[o|]|]; cbn; try reflexivity.
        destruct (unpickle_global bytes); cbn; [reflexivity|].
        destruct (unpickle_refusal bytes); reflexivity.
      * destruct e; reflexivity.
  - destruct (is_FileNotFoundError e); cbn; [|reflexivity].
    unfold call_database_creator; cbn.
    destruct (database_creator self _) as [[v|e'] w2]; reflexivity.
Qed.

Lemma load_no_prior_database self w :
  no_prior_database self w →
  load (self, w) =
    match database_creator self (before_creator self w) with
    | (Ok v, w2) => (Ok v, (set_database v self, w2))
    | (Raise e, w2) => (Raise e, (self, w2))
    end.
Proof.
  intros [(e & Hp & He)|(text & Hp & Hws)]; rewrite load_cases; cbn zeta;
    rewrite Hp; [by rewrite He | by rewrite Hws].
Qed.

Lemma load_missing_record self w text :
  read_file w (exact_most_recent_save_file self) = Ok text →
  only_whitespace (readline text) = false →
  missing w (strip (readline text)) →
  load (self, w) =
    (Raise (RuntimeError ("Most recent save file " +:+ repr (strip (readline text))
                            +:+ " could not be found")),
     (self, logged [OpenRead (strip (readline text));
                    OpenRead (exact_most_recent_save_file self)] w)).
Proof.
  intros Hp Hws (e & Hrec & He). rewrite load_cases; cbn zeta.
  by rewrite Hp, Hws, Hrec, He.
Qed.

Lemma load_record self w text bytes o :
  read_file w (exact_most_recent_save_file self) = Ok text →
  only_whitespace (readline text) = false →
  read_file w (strip (readline text)) = Ok bytes →
  pickle_loads bytes = Some (Some o) →
  load (self, w) =
    let w1 := logged [OpenRead (strip (readline text));
                      OpenRead (exact_most_recent_save_file self)] w in
    let said := ["Loaded database from " +:+ strip (readline text)] in
    let l := fresh (dom (heap w)) in
    (Ok (PyRef l),
     (set_database (PyRef l) self,
      set_stdout (stdout w ++ said) (set_heap (<[l := o]> (heap w)) w1))).
Proof.
  intros Hp Hws Hrec Hloads. rewrite load_cases; cbn zeta.
  by rewrite Hp, Hws, Hrec, Hloads.
Qed.

(** ** What [save] does *)

Lemma save_nothing_resident self w :
  _database self = PyNone →
  save PyNone (self, w) = (Raise NoDatabaseError, (self, w)).
Proof. intros Hdb. unfold save, bind, get_self; cbn. by rewrite Hdb. Qed.

(** The first step of [save database]: the argument, when there is one,
    becomes the resident value. *)
Lemma save_assigns self w database l :
  (if is_None database then _database self else database) = PyRef l →
  (if is_None database then ret tt else assign_database database) (self, w)
  = (Ok tt, (set_database (PyRef l) self, w)).
Proof.
  destruct database; simpl; [|by intros [= ->]].
  intros Hdb. destruct self; simpl in *; by subst.
Qed.

Lemma save_file_of_set_database v self stamp :
  save_file_of (set_database v self) stamp = save_file_of self stamp.
Proof. reflexivity. Qed.

(** The value [save database] writes: the argument, or the resident value
    when the argument is [None]. *)
Lemma save_writes self w database l o bytes stamp out kr kp :
  (if is_None database then _database self else database) = PyRef l →
  heap w !! l = Some o →
  pickle_dumps (Some o) = Some bytes →
  stamp_in w = Some (stamp, out) →
  locate w Writing (save_file_of self stamp) = Ok kr →
  locate (set_files (<[kr := bytes]> (files w)) w) Writing
         (exact_most_recent_save_file self) = Ok kp →
  save database (self, w) =
    (Ok tt,
     (set_database (PyRef l) self,
      saved_world w (exact_most_recent_save_file self) kp
                  (save_file_of self stamp) kr bytes out)).
Proof.
  intros Hdb Hl Hdump Hstamp Hkr Hkp.
  unfold save, bind at 1. rewrite (save_assigns _ _ _ l) by done.
  unfold locate in Hkr, Hkp. cbn in Hkp.
  unfold bind, get_self, try_except, strftime_now, stamp_in, open_write, locate
    in *; cbn.
  destruct (clock w (ticks w)) as [t|e] eqn:Hclock;
    [|destruct (is_Exception e); [|done]];
    injection Hstamp as <- <-; cbn;
    rewrite !save_file_of_set_database, Hkr; cbn;
    unfold pickle_dump, bind, get_world; cbn; rewrite Hl, Hdump; cbn;
    rewrite !lookup_insert_eq; cbn; rewrite !insert_insert_eq;
    change (EmptyString +:+ bytes) with bytes;
    rewrite Hkp; cbn;
    unfold print, modify_world; cbn;
    rewrite !lookup_insert_eq; cbn; rewrite !insert_insert_eq;
    do 2 f_equal; apply world_eq; cbn; rewrite ?app_nil_r; reflexivity.
Qed.

Lemma expose_resident self w :
  _database self ≠ PyNone → expose (self, w) = (Ok (_database self), (self, w)).
Proof. intros Hdb. unfold expose, bind, get_self; cbn. by destruct (_database self). Qed.

Lemma expose_nothing_resident self w :
  _database self = PyNone → expose (self, w) = (Raise NoDatabaseError, (self, w)).
Proof. intros Hdb. unfold expose, bind, get_self; cbn. by rewrite Hdb. Qed.

(** ** The claims about [load], [expose] and a failing [save] *)

(** C3: when the pointer file can be read and its first line names a file
    that is not there ([open] on it raises [FileNotFoundError]), [load]
    raises a [RuntimeError]; the store and the world are as before but for
    the two [open] calls in the log, so no factory made database was
    installed.  Where it is the pointer file that is not there, [load]
    instead answers what the factory answers. *)
Theorem load_missing_record_raises self w text :
  read_file w (exact_most_recent_save_file self) = Ok text →
  only_whitespace (readline text) = false →
  missing w (strip (readline text)) →
  (∃ msg,
     load (self, w) =
       (Raise (RuntimeError msg),
        (self, logged [OpenRead (strip (readline text));
                       OpenRead (exact_most_recent_save_file self)] w)))
  ∧ (∀ w', missing w' (exact_most_recent_save_file self) →
       (load (self, w')).1 = (database_creator self (before_creator self w')).1).
Proof.
  intros Hp Hws Hrec. split.
  - eexists. by apply load_missing_record.
  - intros w' Hmissing. rewrite load_no_prior_database by by left.
    by destruct (database_creator self _) as [[v|e] w2].
Qed.

(** C4: when the pointer file is missing, or its first line holds only
    white space, and the factory returns [v], [load] raises nothing, sets
    the in-memory value to [v] and returns [v]. *)
Theorem load_cold_start self w v w2 :
  no_prior_database self w →
  database_creator self (before_creator self w) = (Ok v, w2) →
  load (self, w) = (Ok v, (set_database v self, w2))
  ∧ _database (load (self, w)).2.1 = v.
Proof.
  intros Hcold Hmk. rewrite load_no_prior_database, Hmk by done. done.
Qed.

(** C7: [save()] without a value, on a store with no resident value, raises
    [NoDatabaseError] and changes nothing: the store, the heap, the files,
    the console and the log of [open] calls are as before. *)
Theorem save_without_value_fails_atomically self w :
  _database self = PyNone →
  save PyNone (self, w) = (Raise NoDatabaseError, (self, w)).
Proof. apply save_nothing_resident. Qed.

(** C8: [expose] returns the in-memory value when there is one and raises
    [NoDatabaseError] when there is none, as on a store just constructed;
    either way the store and the world, files and log of [open] calls
    included, are unchanged. *)
Theorem expose_reads_memory_only s :
  (_database s.1 ≠ PyNone → expose s = (Ok (_database s.1), s))
  ∧ (_database s.1 = PyNone → expose s = (Raise NoDatabaseError, s))
  ∧ (∀ folder creator name w self' w',
       init folder creator name w = (Ok self', w') →
       expose (self', w') = (Raise NoDatabaseError, (self', w')))
  ∧ (∀ folder creator name w,
       expose (new_store folder creator name, w)
       = (Raise NoDatabaseError, (new_store folder creator name, w)))
  ∧ (expose s).2 = s.
Proof.
  destruct s as [self w]. split; [|split; [|split; [|split]]].
  - apply expose_resident.
  - apply expose_nothing_resident.
  - intros folder creator name w0 self' w' Hinit.
    destruct (init_Ok_inv _ _ _ _ _ _ Hinit) as (-> & _).
    by apply expose_nothing_resident.
  - intros folder creator name w0. by apply expose_nothing_resident.
  - unfold expose, bind, get_self; cbn. by destruct (_database self).
Qed.

(** C10: on a cold start with a factory that returns [None], [load] raises
    nothing and returns [None]; afterwards [expose] and [save()] both raise
    [NoDatabaseError], and a store that held nothing before is the very
    store it was. *)
Theorem none_factory_leaves_nothing_resident self w w2 :
  no_prior_database self w →
  database_creator self (before_creator self w) = (Ok PyNone, w2) →
  let after := (set_database PyNone self, w2) in
  load (self, w) = (Ok PyNone, after)
  ∧ expose after = (Raise NoDatabaseError, after)
  ∧ save PyNone after = (Raise NoDatabaseError, after)
  ∧ (_database self = PyNone → after.1 = self).
Proof.
  intros Hcold Hmk after. unfold after. split; [|split; [|split]].
  - by rewrite load_no_prior_database, Hmk.
  - by apply expose_nothing_resident.
  - by apply save_nothing_resident.
  - intros Hdb. destruct self; simpl in *; by subst.
Qed.

(** ** [expose_or_load] and the two scopes *)

Lemma load_returns_database s v s1 :
  load s = (Ok v, s1) → _database s1.1 = v.
Proof.
  unfold load, bind at 1.
  destruct (try_except _ _ _ s) as [[u|e] s']; [|done].
  unfold bind, get_self; cbn. by intros [= <- <-].
Qed.

Lemma expose_or_load_resident self w :
  _database self ≠ PyNone →
  expose_or_load (self, w) = (Ok (_database self), (self, w)).
Proof.
  intros Hdb. unfold expose_or_load, try_except. by rewrite expose_resident.
Qed.

Lemma expose_or_load_nothing_resident self w :
  _database self = PyNone → expose_or_load (self, w) = load (self, w).
Proof.
  intros Hdb. unfold expose_or_load, try_except.
  by rewrite expose_nothing_resident.
Qed.

(** The files [load] opens: the pointer file, then at most one record. *)
Lemma load_opens self w :
  (∀ w0, io_log (database_creator self w0).2 = io_log w0) →
  ∃ ev, io_log (load (self, w)).2.2 = (ev ++ io_log w)%list
        ∧ (ev = [OpenRead (exact_most_recent_save_file self)]
           ∨ ∃ p, ev = [OpenRead p; OpenRead (exact_most_recent_save_file self)]).
Proof.
  intros Hquiet.
  assert (io_log (let '(r0, w2) := database_creator self (before_creator self w)
                       in match r0 with
                          | Ok v => (Ok v, (set_database v self, w2))
                          | Raise e => (Raise e, (self, w2))
                          end : result pyval * state).2.2
               = ([OpenRead (exact_most_recent_save_file self)] ++ io_log w)%list)
    as Hfactory.
  { specialize (Hquiet (before_creator self w)).
    by destruct (database_creator self _) as [[v|e] w2]. }
  rewrite load_cases; cbn zeta.
  destruct (read_file w (exact_most_recent_save_file self)) as [text|e].
  - destruct (only_whitespace (readline text)).
    + eexists. split; [by apply Hfactory|by left].
    + exists [OpenRead (strip (readline text));
              OpenRead (exact_most_recent_save_file self)].
      split; [|by eauto].
      destruct (read_file w (strip (readline text))) as [bytes|e]; [|done].
      destruct (pickle_loads bytes) as [[o|]|]; [done..|].
      by destruct (unpickle_global bytes).
  - destruct (is_FileNotFoundError e).
    + eexists. split; [by apply Hfactory|by left].
    + eexists. split; [reflexivity|by left].
Qed.

(** C9, amended: [expose_or_load] answers the resident value, with the
    store and the world untouched, when there is one, and is [load]
    otherwise; once it has answered an object, calling it again answers the
    same object and changes nothing, the log of [open] calls included; and
    one call opens at most the pointer file and then one record file, two
    reads at most (a factory that opens no file assumed). *)
Theorem expose_or_load_reads_at_most_pointer_and_record self w :
  (_database self ≠ PyNone →
     expose_or_load (self, w) = (Ok (_database self), (self, w))
     ∧ expose_or_load (self, w) = expose (self, w))
  ∧ (_database self = PyNone → expose_or_load (self, w) = load (self, w))
  ∧ (∀ l s1, expose_or_load (self, w) = (Ok (PyRef l), s1) →
       expose_or_load s1 = (Ok (PyRef l), s1))
  ∧ ((∀ w0, io_log (database_creator self w0).2 = io_log w0) →
       (∃ ev, io_log (expose_or_load (self, w)).2.2 = (ev ++ io_log w)%list
              ∧ (ev = []
                 ∨ ev = [OpenRead (exact_most_recent_save_file self)]
                 ∨ ∃ p, ev = [OpenRead p;
                              OpenRead (exact_most_recent_save_file self)]))
       ∧ (reads_between w (expose_or_load (self, w)).2.2 ≤ 2)%nat).
Proof.
  split; [|split; [|split]]; [split|..].
  - by apply expose_or_load_resident.
  - by rewrite expose_or_load_resident, expose_resident.
  - apply expose_or_load_nothing_resident.
  - intros l [self1 w1] Hcall.
    assert (_database self1 = PyRef l) as Hdb.
    { destruct (decide (_database self = PyNone)) as [Hnone|Hsome].
      - rewrite expose_or_load_nothing_resident in Hcall by done.
        by apply load_returns_database in Hcall.
      - rewrite expose_or_load_resident in Hcall by done. by simplify_eq. }
    rewrite expose_or_load_resident by (by rewrite Hdb). by rewrite Hdb.
  - intros Hquiet.
    assert (∃ ev, io_log (expose_or_load (self, w)).2.2 = (ev ++ io_log w)%list
              ∧ (ev = []
                 ∨ ev = [OpenRead (exact_most_recent_save_file self)]
                 ∨ ∃ p, ev = [OpenRead p;
                              OpenRead (exact_most_recent_save_file self)]))
      as Hopens.
    { destruct (decide (_database self = PyNone)) as [Hnone|Hsome].
      - rewrite expose_or_load_nothing_resident by done.
        destruct (load_opens self w Hquiet) as (ev & -> & [->| [p ->]]);
          eexists; eauto.
      - rewrite expose_or_load_resident by done. exists []. eauto. }
    split; [exact Hopens|].
    destruct Hopens as (ev & Hlog & Hev). unfold reads_between. rewrite Hlog.
    destruct Hev as [->|[->|[p ->]]]; cbn; lia.
Qed.

(** ** Every way [save] can end *)

(** [save] works on the argument, or on the resident value when the
    argument is [None].  It ends at the first step that raises: no value,
    the clock, opening the record file, pickling, opening the pointer
    file. *)
Lemma save_cases database self w :
  save database (self, w) =
    let pointer := exact_most_recent_save_file self in
    match (if is_None database then _database self else database) with
    | PyNone => (Raise NoDatabaseError, (self, w))
    | PyRef l =>
        let self' := set_database (PyRef l) self in
        let named stamp out :=
          let p := save_file_of self stamp in
          match locate w Writing p with
          | Raise e =>
              (Raise e, (self', record_refused w p out))
          | Ok kr =>
              match heap w !! l with
              | None =>
                  (Raise PicklingError,
                   (self', truncated_world w p kr EmptyString out))
              | Some o =>
                  match pickle_dumps (Some o) with
                  | None =>
                      (Raise (pickle_refusal (Some o)),
                       (self',
                        truncated_world w p kr (pickle_partial (Some o)) out))
                  | Some bytes =>
                      let w2 := truncated_world w p kr bytes out in
                      match locate w2 Writing pointer with
                      | Raise e =>
                          (Raise e,
                           (self',
                            set_io_log (OpenWrite pointer :: io_log w2) w2))
                      | Ok kp =>
                          (Ok tt,
                           (self', saved_world w pointer kp p kr bytes out))
                      end
                  end
              end
          end in
        match clock w (ticks w) with
        | Ok t => named t []
        | Raise e =>
            if is_Exception e
            then named "UnknownTime" ["Failed to obtain formatted date and time!"]
            else (Raise e, (self', set_ticks (S (ticks w)) w))
        end
    end.
Proof.
  cbn zeta.
  destruct (if is_None database then _database self else database)
    as [|l] eqn:Hdb.
  { destruct database; cbn in Hdb; [by apply save_nothing_resident|done]. }
  unfold save, bind at 1. rewrite (save_assigns _ _ _ l) by done.
  unfold bind, get_self, try_except, strftime_now, open_write, locate; cbn.
  destruct (clock w (ticks w)) as [t|e] eqn:Hclock;
    [|destruct (is_Exception e); [|reflexivity]];
    cbn; rewrite !save_file_of_set_database;
    (destruct (os_locate (dirs w) (dom (files w)) Writing _) as [kr|e1];
       [|cbn; do 2 f_equal; apply world_eq; cbn; rewrite ?app_nil_r; reflexivity]);
    cbn; unfold pickle_dump, bind, get_world; cbn;
    (destruct (heap w !! l) as [o|];
       [|cbn; do 2 f_equal; apply world_eq; cbn; rewrite ?app_nil_r; reflexivity]);
    (destruct (pickle_dumps (Some o)) as [bytes|]; cbn;
       rewrite !lookup_insert_eq; cbn; rewrite !insert_insert_eq;
       [|do 2 f_equal; apply world_eq; cbn; rewrite ?app_nil_r; reflexivity]);
    change (EmptyString +:+ bytes) with bytes;
    (destruct (os_locate (dirs w) (dom (<[kr:=bytes]> (files w))) Writing _)
       as [kp|e2];
       [|cbn; do 2 f_equal; apply world_eq; cbn; rewrite ?app_nil_r; reflexivity]);
    cbn; unfold print, modify_world; cbn;
    rewrite !lookup_insert_eq; cbn; rewrite !insert_insert_eq;
    do 2 f_equal; apply world_eq; cbn; rewrite ?app_nil_r; reflexivity.
Qed.


Lemma truncated_world_locate w p k content out mode path :
  locate (truncated_world w p k content out) mode path
  = locate (set_files (<[k := content]> (files w)) w) mode path.
Proof. reflexivity. Qed.

Lemma save_interrupted database self w l e :
  (if is_None database then _database self else database) = PyRef l →
  clock w (ticks w) = Raise e →
  is_Exception e = false →
  save database (self, w)
  = (Raise e, (set_database (PyRef l) self, set_ticks (S (ticks w)) w)).
Proof.
  intros Hdb Hclock He. rewrite save_cases; cbn zeta.
  by rewrite Hdb, Hclock, He.
Qed.

Lemma save_named database self w l stamp out :
  (if is_None database then _database self else database) = PyRef l →
  stamp_in w = Some (stamp, out) →
  save database (self, w) =
    let p := save_file_of self stamp in
    let pointer := exact_most_recent_save_file self in
    let self' := set_database (PyRef l) self in
    match locate w Writing p with
    | Raise e => (Raise e, (self', record_refused w p out))
    | Ok kr =>
        match heap w !! l with
        | None =>
            (Raise PicklingError, (self', truncated_world w p kr EmptyString out))
        | Some o =>
            match pickle_dumps (Some o) with
            | None =>
                (Raise (pickle_refusal (Some o)),
                 (self', truncated_world w p kr (pickle_partial (Some o)) out))
            | Some bytes =>
                let w2 := truncated_world w p kr bytes out in
                match locate w2 Writing pointer with
                | Raise e =>
                    (Raise e,
                     (self', set_io_log (OpenWrite pointer :: io_log w2) w2))
                | Ok kp =>
                    (Ok tt, (self', saved_world w pointer kp p kr bytes out))
                end
            end
        end
    end.
Proof.
  intros Hdb Hstamp. rewrite save_cases; cbn zeta. rewrite Hdb.
  unfold stamp_in in Hstamp.
  destruct (clock w (ticks w)) as [t|e]; [|destruct (is_Exception e); [|done]];
    by injection Hstamp as <- <-.
Qed.

Lemma save_cannot_pickle database self w l stamp out kr :
  (if is_None database then _database self else database) = PyRef l →
  cannot_pickle (heap w) l →
  stamp_in w = Some (stamp, out) →
  locate w Writing (save_file_of self stamp) = Ok kr →
  save database (self, w)
  = (Raise (pickling_refusal (heap w) l),
     (set_database (PyRef l) self,
      truncated_world w (save_file_of self stamp) kr
                      (partial_pickle (heap w) l) out)).
Proof.
  intros Hdb Hpickle Hstamp Hkr.
  rewrite (save_named _ _ _ l stamp out) by done. cbn zeta. rewrite Hkr.
  unfold cannot_pickle, pickling_refusal, partial_pickle in *.
  destruct (heap w !! l) as [o|]; [by rewrite Hpickle|done].
Qed.

(** ** Entering and leaving the two scopes *)

Lemma with_load_then_save_entered (body : pyval → M unit) s v s1 :
  load s = (Ok v, s1) →
  with_ load_then_save body s =
    let (rb, s2) := body (_database s1.1) s1 in
    let (rs, s3) := save PyNone s2 in
    (match rs with Ok _ => rb | Raise e' => Raise e' end, s3).
Proof.
  intros Hload. unfold with_, load_then_save.
  cbn [advance gbind gtry_except gtry_finally call]. rewrite Hload. cbn -[save].
  destruct (body (_database s1.1) s1) as [[[]|e1] s2]; cbn -[save];
    [|destruct (is_Exception e1); cbn -[save]];
    destruct (save PyNone s2) as [[[]|e'] s3]; reflexivity.
Qed.

Lemma with_load_then_save_failed (body : pyval → M unit) s e s1 :
  load s = (Raise e, s1) →
  with_ load_then_save body s =
    let (rs, s3) := save PyNone s1 in
    (match rs with Ok _ => Raise e | Raise e' => Raise e' end, s3).
Proof.
  intros Hload. unfold with_, load_then_save.
  cbn [advance gbind gtry_except gtry_finally call]. rewrite Hload. cbn -[save].
  destruct (is_Exception e); cbn -[save];
    destruct (save PyNone s1) as [[[]|e'] s3]; reflexivity.
Qed.

Lemma with_expose_or_load_then_save_entered (body : pyval → M unit) s v s1 :
  expose_or_load s = (Ok v, s1) →
  with_ expose_or_load_then_save body s =
    let (rb, s2) := body (_database s1.1) s1 in
    let (rs, s3) := save PyNone s2 in
    (match rs with Ok _ => rb | Raise e' => Raise e' end, s3).
Proof.
  intros Hentry. unfold with_, expose_or_load_then_save. cbn [advance].
  rewrite Hentry. cbn -[save].
  destruct (body (_database s1.1) s1) as [[[]|e] s2]; cbn -[save];
    destruct (save PyNone s2) as [[[]|e'] s3]; reflexivity.
Qed.

Lemma with_expose_or_load_then_save_failed (body : pyval → M unit) s e s1 :
  expose_or_load s = (Raise e, s1) →
  with_ expose_or_load_then_save body s =
    if is_NoDatabaseError e then (Raise e, s1)
    else
      let (rs, s3) := save PyNone s1 in
      (match rs with Ok _ => Raise e | Raise e' => Raise e' end, s3).
Proof.
  intros Hentry. unfold with_, expose_or_load_then_save. cbn [advance].
  rewrite Hentry. destruct (is_NoDatabaseError e); cbn -[save]; [done|].
  destruct (save PyNone s1) as [[[]|e'] s3]; reflexivity.
Qed.

Lemma set_database_same self v : _database self = v → set_database v self = self.
Proof. intros <-. by destruct self. Qed.

(** The heap after the body changed the object at [l] in place *)
Lemma alter_known (f : obj → obj) (h : gmap loc obj) l o :
  h !! l = Some o → alter f l h = <[l := f o]> h.
Proof.
  intros Hl. apply map_eq. intros i. rewrite lookup_alter, lookup_insert.
  case_decide; [subst; by rewrite Hl|done].
Qed.

(** C5, amended: when [expose_or_load] raises [NoDatabaseError] on entry,
    the scope raises it at once, the body does not run and nothing is
    saved: the state is the one the failed entry left; nothing was
    resident then.  When the entry succeeds, the body runs on the resident
    value and [save()] runs after it, whether the body returned or raised;
    an exception of [save()] replaces the body's outcome.  With nothing
    resident and no pointer file to be found, the entry does succeed as
    soon as the factory returns a value, and the scope saves on the way
    out.  An entry that raises another exception is followed by [save()]
    too. *)
Theorem expose_or_load_then_save_scope (body : pyval → M unit) s :
  (∀ s1, expose_or_load s = (Raise NoDatabaseError, s1) →
     with_ expose_or_load_then_save body s = (Raise NoDatabaseError, s1)
     ∧ _database s.1 = PyNone)
  ∧ (∀ v s1, expose_or_load s = (Ok v, s1) →
     with_ expose_or_load_then_save body s =
       let (rb, s2) := body (_database s1.1) s1 in
       let (rs, s3) := save PyNone s2 in
       (match rs with Ok _ => rb | Raise e => Raise e end, s3))
  ∧ (∀ v w2, _database s.1 = PyNone →
     no_prior_database s.1 s.2 →
     database_creator s.1 (before_creator s.1 s.2) = (Ok v, w2) →
     with_ expose_or_load_then_save body s =
       let (rb, s2) := body v (set_database v s.1, w2) in
       let (rs, s3) := save PyNone s2 in
       (match rs with Ok _ => rb | Raise e => Raise e end, s3))
  ∧ (∀ e s1, expose_or_load s = (Raise e, s1) →
     is_NoDatabaseError e = false →
     with_ expose_or_load_then_save body s =
       let (rs, s3) := save PyNone s1 in
       (match rs with Ok _ => Raise e | Raise e' => Raise e' end, s3)).
Proof.
  split; [|split; [|split]].
  - intros s1 Hentry. split.
    + by rewrite (with_expose_or_load_then_save_failed _ _ _ _ Hentry).
    + destruct s as [self w]; cbn [fst snd].
      destruct (decide (_database self = PyNone)) as [Hnone|Hsome]; [done|].
      by rewrite expose_or_load_resident in Hentry.
  - intros v s1 Hentry. by apply (with_expose_or_load_then_save_entered _ _ v).
  - intros v w2 Hnone Hcold Hmk. destruct s as [self w]; cbn [fst snd] in *.
    assert (expose_or_load (self, w) = (Ok v, (set_database v self, w2)))
      as Hentry.
    { rewrite expose_or_load_nothing_resident by done.
      by rewrite load_no_prior_database, Hmk. }
    by rewrite (with_expose_or_load_then_save_entered _ _ _ _ Hentry).
  - intros e s1 Hentry He.
    by rewrite (with_expose_or_load_then_save_failed _ _ _ _ Hentry), He.
Qed.

(** C6, amended: the load-then-save scope runs [load] on entry and [save()]
    on every way out.  After a successful entry the body runs and [save()]
    follows, whether the body returned or raised; after a failed entry
    [save()] runs all the same.  When the body changes the loaded object in
    place and raises [e], and the record file can be opened: if the changed
    object can be pickled and the pointer file can be opened, the record
    file is written with the pickle of the changed object, the pointer file
    names it, and the scope raises [e]; if the changed object cannot be
    pickled, the scope raises the exception of [pickle.dump] in the place
    of [e] and leaves what [pickle.dump] had written in the record file.
    When the record file cannot be opened, the scope raises the exception
    of [open] in the place of [e]. *)
Theorem load_then_save_scope_always_saves (body : pyval → M unit) s
    self1 w1 l o (f : obj → obj) e stamp out :
  (∀ v s1, load s = (Ok v, s1) →
     with_ load_then_save body s =
       let (rb, s2) := body (_database s1.1) s1 in
       let (rs, s3) := save PyNone s2 in
       (match rs with Ok _ => rb | Raise e' => Raise e' end, s3))
  ∧ (∀ e0 s1, load s = (Raise e0, s1) →
     with_ load_then_save body s =
       let (rs, s3) := save PyNone s1 in
       (match rs with Ok _ => Raise e0 | Raise e' => Raise e' end, s3))
  ∧ (load s = (Ok (PyRef l), (self1, w1)) →
     heap w1 !! l = Some o →
     stamp_in w1 = Some (stamp, out) →
     let changed := set_heap (<[l := f o]> (heap w1)) w1 in
     let pointer := exact_most_recent_save_file self1 in
     let p := save_file_of self1 stamp in
     (∀ kr bytes kp,
        locate w1 Writing p = Ok kr →
        pickle_dumps (Some (f o)) = Some bytes →
        locate (set_files (<[kr := bytes]> (files w1)) w1) Writing pointer
        = Ok kp →
        with_ load_then_save (mutate_then_raise f e) s =
          (Raise e, (self1, saved_world changed pointer kp p kr bytes out)))
     ∧ (∀ kr,
        locate w1 Writing p = Ok kr →
        pickle_dumps (Some (f o)) = None →
        with_ load_then_save (mutate_then_raise f e) s =
          (Raise (pickle_refusal (Some (f o))),
           (self1,
            truncated_world changed p kr (pickle_partial (Some (f o))) out)))
     ∧ (∀ e',
        locate w1 Writing p = Raise e' →
        with_ load_then_save (mutate_then_raise f e) s =
          (Raise e', (self1, record_refused changed p out)))).
Proof.
  split; [|split].
  - intros v s1 Hload. by apply (with_load_then_save_entered _ _ v).
  - intros e0 s1 Hload. by apply with_load_then_save_failed.
  - intros Hload Hl Hstamp changed pointer p.
    pose proof (load_returns_database _ _ _ Hload) as Hdb. cbn in Hdb.
    assert (with_ load_then_save (mutate_then_raise f e) s =
            let (rs, s3) := save PyNone (self1, changed) in
            (match rs with Ok _ => Raise e | Raise e' => Raise e' end, s3))
      as Hscope.
    { rewrite (with_load_then_save_entered _ _ _ _ Hload). cbn [fst snd].
      rewrite Hdb. unfold mutate_then_raise, update_in_place, bind, raise,
        modify_world. cbn -[save]. unfold changed.
      by rewrite (alter_known f _ l o). }
    rewrite Hscope.
    rewrite (save_named PyNone self1 changed l stamp out) by done. cbn zeta.
    change (locate changed Writing (save_file_of self1 stamp))
      with (locate w1 Writing p).
    change (heap changed) with (<[l := f o]> (heap w1)).
    rewrite lookup_insert_eq, (set_database_same self1) by done.
    split; [|split].
    + intros kr bytes kp Hkr Hdump Hkp. rewrite Hkr, Hdump.
      rewrite truncated_world_locate.
      change (locate (set_files (<[kr:=bytes]> (files changed)) changed) Writing
                     (exact_most_recent_save_file self1))
        with (locate (set_files (<[kr:=bytes]> (files w1)) w1) Writing pointer).
      by rewrite Hkp.
    + intros kr Hkr Hdump. by rewrite Hkr, Hdump.
    + intros e' Hkr. by rewrite Hkr.
Qed.

(** ** Saving and loading again *)

Lemma reads_back_names path :
  reads_back path → only_whitespace (readline path) = false.
Proof. intros [Hline Hne]. by rewrite <- strip_is_empty, Hline. Qed.

(** C1, amended: for a value other than [None] that is serializable, with
    a record path that the pointer file gives back as written (not empty,
    one line, no white space at either end), on a file system where the
    save folder is a directory and where the record path and the pointer
    path name two different files, [save(v)] succeeds and [load()] on a
    store newly constructed over the same folder and pointer file name
    returns a value holding what [v] held. *)
Theorem save_then_fresh_load_round_trips self w l o stamp out creator kr kp :
  constructed self →
  heap w !! l = Some o →
  serializable (Some o) →
  stamp_in w = Some (stamp, out) →
  reads_back (save_file_of self stamp) →
  (∀ present, os_isdir (dirs w) present (save_folder self) = true) →
  opens_as w (save_file_of self stamp) kr →
  opens_as w (exact_most_recent_save_file self) kp →
  kr ≠ kp →
  (∃ s1, save (PyRef l) (self, w) = (Ok tt, s1))
  ∧ round_trips self w (PyRef l) creator.
Proof.
  intros Hself Hl (bytes & Hdump & Hundump) Hstamp Hback Hdir
    [Hkr_r Hkr_w] [Hkp_r Hkp_w] Hne.
  pose proof (save_writes self w (PyRef l) l o bytes stamp out kr kp
                eq_refl Hl Hdump Hstamp (Hkr_w _) (Hkp_w _)) as Hsave.
  split; [eauto|].
  intros snap s1 Hsnap _ Hs1. rewrite Hsave in Hs1. injection Hs1 as <-.
  cbn in Hsnap. rewrite Hl in Hsnap. injection Hsnap as <-.
  cbn [snd].
  set (w1 := saved_world w _ kp _ kr bytes out).
  unfold load_afresh. rewrite init_there by apply Hdir.
  assert (exact_most_recent_save_file
            (new_store (save_folder self) creator (most_recent_save_file self))
          = exact_most_recent_save_file self) as Hptr by by rewrite Hself.
  assert (read_file w1 (exact_most_recent_save_file self)
          = Ok (save_file_of self stamp)) as Hp.
  { apply (read_file_there _ _ kp); [apply Hkp_r|].
    unfold w1, saved_world; cbn. apply lookup_insert_eq. }
  pose proof (reads_back_names _ Hback) as Hws.
  assert (read_file w1 (strip (readline (save_file_of self stamp))) = Ok bytes)
    as Hrec.
  { destruct Hback as [-> _]. apply (read_file_there _ _ kr); [apply Hkr_r|].
    unfold w1, saved_world; cbn.
    rewrite lookup_insert_ne by done. apply lookup_insert_eq. }
  rewrite <- Hptr in Hp.
  rewrite (load_record _ _ _ _ _ Hp Hws Hrec Hundump). cbn zeta.
  unfold returned_snapshot. cbn. by rewrite lookup_insert_eq.
Qed.

(** ** A run of [save] calls *)




(** ** Further properties of the constructor, [load] and [save] *)

(** X1: the constructor looks for the folder and makes it when it is not
    there.  On an existing folder the world is unchanged, so a second
    constructor over the same folder is silent.  When [os.mkdir] raises, the
    constructor raises the same exception, no store is made and the world
    is unchanged.  When [os.mkdir] succeeds, the folder is added and the
    notice printed.  A constructor that returns touches nothing else:
    files, heap and the log of [open] calls are as before, and the new
    store holds no value and the pointer path joined from the folder and
    the pointer file name. *)
Theorem init_creates_folder_once folder creator name w :
  (os_isdir (dirs w) (dom (files w)) folder = true →
     init folder creator name w = (Ok (new_store folder creator name), w))
  ∧ (∀ e, os_isdir (dirs w) (dom (files w)) folder = false →
     os_mkdir_refusal (dirs w) (dom (files w)) folder = Some e →
     init folder creator name w = (Raise e, w))
  ∧ (os_isdir (dirs w) (dom (files w)) folder = false →
     os_mkdir_refusal (dirs w) (dom (files w)) folder = None →
     ∃ w', init folder creator name w = (Ok (new_store folder creator name), w')
           ∧ dirs w' = {[folder]} ∪ dirs w
           ∧ stdout w' =
               (stdout w ++
                  ["Save folder not found! A save folder named '" +:+ folder
                     +:+ "' was created instead."])%list)
  ∧ (∀ self' w', init folder creator name w = (Ok self', w') →
     _database self' = PyNone ∧ constructed self'
     ∧ files w' = files w ∧ heap w' = heap w ∧ io_log w' = io_log w).
Proof.
  split; [apply init_there|split; [|split]].
  - intros e Hdir Hmk. unfold init. by rewrite Hdir, Hmk.
  - intros Hdir Hmk. unfold init. rewrite Hdir, Hmk. by eexists.
  - intros self' w' Hinit.
    destruct (init_Ok_inv _ _ _ _ _ _ Hinit) as (-> & ? & ? & ? & _). done.
Qed.



(** X4: when reading the clock raises, [save] goes on under the name
    [UnknownTime] if the exception derives from [Exception]: it says so on
    the console, writes the record [db_sv_UnknownTime.pkl] and points the
    pointer file to it, where both files can be opened.  Any other exception
    leaves [save] at once: no file is opened or changed, yet the value to
    save is already resident. *)
Theorem save_names_record_UnknownTime database self w l e :
  (if is_None database then _database self else database) = PyRef l →
  clock w (ticks w) = Raise e →
  (is_Exception e = true →
   ∀ o bytes kr kp, heap w !! l = Some o → pickle_dumps (Some o) = Some bytes →
     locate w Writing (save_file_of self "UnknownTime") = Ok kr →
     locate (set_files (<[kr := bytes]> (files w)) w) Writing
            (exact_most_recent_save_file self) = Ok kp →
     save database (self, w)
     = (Ok tt,
        (set_database (PyRef l) self,
         saved_world w (exact_most_recent_save_file self) kp
                     (save_file_of self "UnknownTime") kr bytes
                     ["Failed to obtain formatted date and time!"])))
  ∧ (is_Exception e = false →
     ∃ s1, save database (self, w) = (Raise e, s1)
           ∧ _database s1.1 = PyRef l
           ∧ files s1.2 = files w ∧ io_log s1.2 = io_log w).
Proof.
  intros Hdb Hclock. split.
  - intros He o bytes kr kp Hl Hdump Hkr Hkp.
    apply (save_writes self w database l o bytes); try done.
    unfold stamp_in. by rewrite Hclock, He.
  - intros He. eexists. split; [by apply save_interrupted|done].
Qed.

(** X5: [save(v)] is not all or nothing.  When [v] cannot be pickled it
    raises the exception of [pickle.dump] after [v] has become the resident
    value and after the record file was opened for writing: the file is
    there and holds what [pickle.dump] had written by then, and every other
    file, the pointer file included, is as it was. *)
Theorem save_unpicklable_is_not_atomic self w l stamp out kr :
  cannot_pickle (heap w) l →
  stamp_in w = Some (stamp, out) →
  locate w Writing (save_file_of self stamp) = Ok kr →
  ∃ s1,
    save (PyRef l) (self, w) = (Raise (pickling_refusal (heap w) l), s1)
    ∧ _database s1.1 = PyRef l
    ∧ files s1.2 !! kr = Some (partial_pickle (heap w) l)
    ∧ (∀ q, q ≠ kr → files s1.2 !! q = files w !! q).
Proof.
  intros Hpickle Hstamp Hkr. eexists. split.
  - by apply (save_cannot_pickle (PyRef l) self w l stamp out kr).
  - cbn. split; [done|]. split; [apply lookup_insert_eq|].
    intros q Hq. by rewrite lookup_insert_ne.
Qed.

(** X6: a value given to [save] becomes the resident value, whether the
    call then succeeds or raises; [save()] without a value keeps the
    resident value.  After a [save(v)] that returned, [expose] answers [v],
    the same object, and leaves the state alone. *)
Theorem save_makes_argument_resident self w :
  (∀ l, _database (save (PyRef l) (self, w)).2.1 = PyRef l)
  ∧ _database (save PyNone (self, w)).2.1 = _database self
  ∧ (∀ l s1, save (PyRef l) (self, w) = (Ok tt, s1) →
       expose s1 = (Ok (PyRef l), s1)).
Proof.
  assert (∀ l, _database (save (PyRef l) (self, w)).2.1 = PyRef l) as Hgiven.
  { intros l. rewrite save_cases. cbn. by repeat case_match. }
  split; [exact Hgiven|split].
  - rewrite save_cases. cbn.
    destruct (_database self) as [|l] eqn:Hdb; [done|]. by repeat case_match.
  - intros l [self1 w1] Hsave.
    specialize (Hgiven l). rewrite Hsave in Hgiven. cbn in Hgiven.
    rewrite expose_resident by (by rewrite Hgiven). by rewrite Hgiven.
Qed.

(** ** Further properties of the two scopes *)

(** X7: with no resident value and a pointer file that names a record which
    is not there ([open] on it raises [FileNotFoundError]), both scopes
    raise [NoDatabaseError], not the [RuntimeError] of [load]: the [save()]
    of the [finally] block runs after the failed entry and its exception
    replaces the first.  The body does not run and no file is written. *)
Theorem scopes_mask_missing_record (body : pyval → M unit) self w text :
  _database self = PyNone →
  read_file w (exact_most_recent_save_file self) = Ok text →
  only_whitespace (readline text) = false →
  missing w (strip (readline text)) →
  let s1 := (self, logged [OpenRead (strip (readline text));
                           OpenRead (exact_most_recent_save_file self)] w) in
  with_ load_then_save body (self, w) = (Raise NoDatabaseError, s1)
  ∧ with_ expose_or_load_then_save body (self, w) = (Raise NoDatabaseError, s1).
Proof.
  intros Hdb Hp Hws Hrec s1.
  pose proof (load_missing_record _ _ _ Hp Hws Hrec) as Hload. split.
  - rewrite (with_load_then_save_failed _ _ _ _ Hload).
    by rewrite save_nothing_resident.
  - rewrite <- expose_or_load_nothing_resident in Hload by done.
    rewrite (with_expose_or_load_then_save_failed _ _ _ _ Hload). cbn -[save].
    by rewrite save_nothing_resident.
Qed.

(** X8: when the store holds a value and the pointer file names a record
    which is not there, the load-then-save scope raises the [RuntimeError]
    of [load] without running the body, and on its way out saves the
    resident value: where the record file and the pointer file can be
    opened, a new record is written and the pointer file names it from then
    on. *)
Theorem load_then_save_saves_after_failed_entry (body : pyval → M unit)
    self w text l o bytes stamp out kr kp :
  _database self = PyRef l →
  heap w !! l = Some o →
  pickle_dumps (Some o) = Some bytes →
  stamp_in w = Some (stamp, out) →
  read_file w (exact_most_recent_save_file self) = Ok text →
  only_whitespace (readline text) = false →
  missing w (strip (readline text)) →
  locate w Writing (save_file_of self stamp) = Ok kr →
  locate (set_files (<[kr := bytes]> (files w)) w) Writing
         (exact_most_recent_save_file self) = Ok kp →
  ∃ msg,
    with_ load_then_save body (self, w)
    = (Raise (RuntimeError msg),
       (self,
        saved_world (logged [OpenRead (strip (readline text));
                             OpenRead (exact_most_recent_save_file self)] w)
                    (exact_most_recent_save_file self) kp
                    (save_file_of self stamp) kr bytes out)).
Proof.
  intros Hdb Hl Hdump Hstamp Hp Hws Hrec Hkr Hkp. eexists.
  rewrite (with_load_then_save_failed _ _ _ _ (load_missing_record _ _ _ Hp Hws Hrec)).
  rewrite (save_writes self _ PyNone l o bytes stamp out kr kp); try done.
  by rewrite set_database_same.
Qed.

(** X9: the expose-or-load-then-save scope on a store that holds a value
    reads nothing from disk: the body gets the resident object, and what
    the body changed in place is what the exit saves, where the record file
    and the pointer file can be opened. *)
Theorem expose_or_load_then_save_saves_resident_value self w l o
    (f : obj → obj) bytes stamp out kr kp :
  _database self = PyRef l →
  heap w !! l = Some o →
  pickle_dumps (Some (f o)) = Some bytes →
  stamp_in w = Some (stamp, out) →
  locate w Writing (save_file_of self stamp) = Ok kr →
  locate (set_files (<[kr := bytes]> (files w)) w) Writing
         (exact_most_recent_save_file self) = Ok kp →
  with_ expose_or_load_then_save (update_in_place f) (self, w)
  = (Ok tt,
     (self,
      saved_world (set_heap (<[l := f o]> (heap w)) w)
                  (exact_most_recent_save_file self) kp
                  (save_file_of self stamp) kr bytes out)).
Proof.
  intros Hdb Hl Hdump Hstamp Hkr Hkp.
  assert (expose_or_load (self, w) = (Ok (PyRef l), (self, w))) as Hentry.
  { rewrite expose_or_load_resident by (by rewrite Hdb). by rewrite Hdb. }
  rewrite (with_expose_or_load_then_save_entered _ _ _ _ Hentry).
  cbn [fst snd]. rewrite Hdb. unfold update_in_place, modify_world.
  cbn [fst snd]. rewrite (alter_known f _ l o) by done.
  rewrite (save_writes self _ PyNone l (f o) bytes stamp out kr kp); try done.
  - by rewrite set_database_same.
  - cbn. by rewrite lookup_insert_eq.
Qed.

(** X10: on a cold start with a factory that returns [None], the
    load-then-save scope hands [None] to the body, and when the body
    leaves the store without a value the scope ends in [NoDatabaseError],
    even after a body that returned normally; nothing is saved. *)
Theorem load_then_save_with_none_factory (body : pyval → M unit)
    self w w2 rb s2 :
  no_prior_database self w →
  database_creator self (before_creator self w) = (Ok PyNone, w2) →
  body PyNone (set_database PyNone self, w2) = (rb, s2) →
  _database s2.1 = PyNone →
  with_ load_then_save body (self, w) = (Raise NoDatabaseError, s2).
Proof.
  intros Hcold Hmk Hbody Hdb.
  assert (load (self, w) = (Ok PyNone, (set_database PyNone self, w2))) as Hload
    by (by rewrite load_no_prior_database, Hmk).
  rewrite (with_load_then_save_entered _ _ _ _ Hload). cbn [fst snd].
  change (_database (set_database PyNone self)) with PyNone. rewrite Hbody.
  destruct s2 as [self2 w2']. by rewrite save_nothing_resident.
Qed.

(** ** Invariants *)

(** X11: no method changes the folder, the factory or the pointer file of
    the store; only the resident value changes.  The same holds for the
    two scopes around a body that leaves the configuration alone, and a
    store whose pointer path was computed by the constructor keeps it. *)
Theorem configuration_is_invariant s (body : pyval → M unit) :
  configured_as s.1 (load s).2.1
  ∧ (∀ v, configured_as s.1 (save v s).2.1)
  ∧ configured_as s.1 (expose_or_load s).2.1
  ∧ ((∀ v, keeps_configuration (body v)) →
       configured_as s.1 (with_ load_then_save body s).2.1
       ∧ configured_as s.1 (with_ expose_or_load_then_save body s).2.1)
  ∧ (constructed s.1 →
       constructed (load s).2.1 ∧ ∀ v, constructed (save v s).2.1).
Proof.
  assert (∀ s0,
            (∀ v, keeps_configuration (body v)) →
            configured_as s.1 s0.1 →
            configured_as s.1
              (let (rb, s2) := body (_database s0.1) s0 in
               let (rs, s3) := save PyNone s2 in
               (match rs with Ok _ => rb | Raise e' => Raise e' end, s3)).2.1)
    as Hexit.
  { intros s0 Hbody Hs0.
    pose proof (Hbody (_database s0.1) s0) as Hb.
    destruct (body (_database s0.1) s0) as [rb s2].
    pose proof (save_keeps_configuration PyNone s2) as Hs.
    destruct (save PyNone s2) as [rs s3]. cbn in *.
    eauto using configured_as_trans. }
  assert (∀ s1 (e : exn),
            configured_as s.1 s1.1 →
            configured_as s.1
              (let (rs, s3) := save PyNone s1 in
               (match rs with Ok _ => Raise e | Raise e' => Raise e' end
                  : result unit, s3)).2.1)
    as Hfail.
  { intros s1 e Hs1.
    pose proof (save_keeps_configuration PyNone s1) as Hs.
    destruct (save PyNone s1) as [rs s3]. cbn in *.
    eauto using configured_as_trans. }
  split; [apply load_keeps_configuration|].
  split; [intros v; apply save_keeps_configuration|].
  split; [apply expose_or_load_keeps_configuration|].
  split.
  - intros Hbody. split.
    + pose proof (load_keeps_configuration s) as Hl.
      destruct (load s) as [[v|e] s1] eqn:Hload; cbn in Hl.
      * rewrite (with_load_then_save_entered _ _ _ _ Hload). by apply Hexit.
      * rewrite (with_load_then_save_failed _ _ _ _ Hload). by apply Hfail.
    + pose proof (expose_or_load_keeps_configuration s) as Hl.
      destruct (expose_or_load s) as [[v|e] s1] eqn:Hentry; cbn in Hl.
      * rewrite (with_expose_or_load_then_save_entered _ _ _ _ Hentry).
        by apply Hexit.
      * rewrite (with_expose_or_load_then_save_failed _ _ _ _ Hentry).
        destruct (is_NoDatabaseError e); [done|]. by apply Hfail.
  - intros Hc. split; [|intros v];
      eapply constructed_configured_as; try exact Hc.
    + apply load_keeps_configuration.
    + apply save_keeps_configuration.
Qed.

Lemma insert_keeps_file (fs : gmap string string) k x q :
  is_Some (fs !! q) → is_Some (<[k := x]> fs !! q).
Proof.
  intros Hq. destruct (decide (k = q)) as [->|Hne].
  - rewrite lookup_insert_eq. by eexists.
  - by rewrite lookup_insert_ne.
Qed.

(** X12: no method deletes a file.  Whatever [save] does, returning or
    raising, every file that was there is still there; [load] and
    [expose_or_load] leave the files exactly as they were (a factory that
    changes no file assumed). *)
Theorem no_method_deletes_a_file self w :
  (∀ v, no_file_lost w (save v (self, w)).2.2)
  ∧ ((∀ w0, files (database_creator self w0).2 = files w0) →
       files (load (self, w)).2.2 = files w
       ∧ files (expose_or_load (self, w)).2.2 = files w).
Proof.
  split.
  - intros v q Hq. rewrite save_cases. cbn zeta.
    repeat case_match; cbn; eauto using insert_keeps_file.
  - intros Hquiet.
    assert (files (load (self, w)).2.2 = files w) as Hload.
    { assert (files (let '(r0, w2) := database_creator self (before_creator self w)
                     in match r0 with
                        | Ok v => (Ok v, (set_database v self, w2))
                        | Raise e => (Raise e, (self, w2))
                        end : result pyval * state).2.2
              = files w) as Hfactory.
      { specialize (Hquiet (before_creator self w)).
        by destruct (database_creator self _) as [[v|e] w2]. }
      rewrite load_cases; cbn zeta.
      destruct (read_file w (exact_most_recent_save_file self)) as [text|e].
      - destruct (only_whitespace (readline text)); [done|].
        destruct (read_file w (strip (readline text))) as [bytes|e]; [|done].
        destruct (pickle_loads bytes) as [[o|]|]; [done..|].
        by destruct (unpickle_global bytes).
      - by destruct (is_FileNotFoundError e). }
    split; [exact Hload|].
    destruct (decide (_database self = PyNone)) as [Hnone|Hsome].
    + by rewrite expose_or_load_nothing_resident.
    + by rewrite expose_or_load_resident.
Qed.

(** ** The demonstration script *)

Lemma print_value_object str_of self w l o :
  heap w !! l = Some o →
  print_value str_of (PyRef l) (self, w)
  = (Ok tt, (self, set_stdout (stdout w ++ [str_of (Some o)]) w)).
Proof.
  intros Hl. unfold print_value, bind, get_world; cbn. by rewrite Hl.
Qed.

Lemma stamp_in_same w w' :
  clock w' = clock w → ticks w' = ticks w → stamp_in w' = stamp_in w.
Proof. unfold stamp_in. by intros -> ->. Qed.

Lemma update_in_place_object (f : obj → obj) self w l :
  update_in_place f (PyRef l) (self, w)
  = (Ok tt, (self, set_heap (alter f l (heap w)) w)).
Proof. reflexivity. Qed.

(** X13: the demonstration script on a disk without a pointer file, where
    the constructor returns and the paths of the pointer file and of the
    two records name files.  It makes the empty dictionary, sets the first
    entry and saves; the scope then loads that record back into a new
    object, the body sets the second entry, and the exit saves again.  The
    script ends normally, the pointer file names the second record, that
    record holds the pickle of the dictionary with both entries, and this
    dictionary is resident. *)
Theorem main_on_a_cold_start (setitem : string → string → obj → obj)
    (str_of : option obj → string) w stamp1 out1 stamp2 out2 bytes1 bytes2
    database_interface w0 k1 k2 kp :
  let folder := "testing_database_interface" in
  let pointer := path_join folder default_most_recent_save_file in
  let o1 := setitem "wow" "haha" empty_dict in
  let o2 := setitem "hi" "yay" o1 in
  let p1 := normpath (path_join folder ("db_sv_" +:+ stamp1 +:+ ".pkl")) in
  let p2 := normpath (path_join folder ("db_sv_" +:+ stamp2 +:+ ".pkl")) in
  init folder default_database_creator default_most_recent_save_file w
  = (Ok database_interface, w0) →
  missing w0 pointer →
  stamp_in w = Some (stamp1, out1) →
  stamp_in (set_ticks (S (ticks w)) w) = Some (stamp2, out2) →
  pickle_dumps (Some o1) = Some bytes1 →
  pickle_loads bytes1 = Some (Some o1) →
  pickle_dumps (Some o2) = Some bytes2 →
  reads_back p1 →
  opens_as w0 pointer kp →
  opens_as w0 p1 k1 →
  names w0 Writing p2 k2 →
  k1 ≠ kp →
  ∃ self' w',
    main setitem str_of w = (Ok self', w')
    ∧ files w' !! kp = Some p2
    ∧ (k2 ≠ kp → files w' !! k2 = Some bytes2)
    ∧ snapshot (heap w') (_database self') = Some (Some o2).
Proof.
  intros folder pointer o1 o2 p1 p2 Hinit Hcold Hstamp1 Hstamp2 Hdump1 Hload1
    Hdump2 Hback [Hkp_r Hkp_w] [Hk1_r Hk1_w] Hk2 Hne.
  assert (∃ s',
    main_statements setitem str_of (database_interface, w0) = (Ok tt, s')
    ∧ files s'.2 !! kp = Some p2
    ∧ (k2 ≠ kp → files s'.2 !! k2 = Some bytes2)
    ∧ snapshot (heap s'.2) (_database s'.1) = Some (Some o2)) as Hrun;
    [|destruct Hrun as (s' & Hrun & ?); exists s'.1, s'.2;
      unfold main; fold folder; rewrite Hinit; cbv zeta; by rewrite Hrun].
  unfold main_statements.
  destruct (init_Ok_inv _ _ _ _ _ _ Hinit)
    as (Hself & Hheap0 & Hfiles0 & _ & Hclock0 & Hticks0).
  assert (exact_most_recent_save_file database_interface = pointer
          ∧ save_folder database_interface = folder
          ∧ database_creator database_interface = default_database_creator)
    as (Hptr & Hfolder & Hmk) by by rewrite Hself.
  clear Hinit Hself. revert Hptr Hfolder Hmk.
  generalize database_interface. clear database_interface.
  intros self Hptr Hfolder Hmk.
  (* db = load() *)
  unfold bind at 1.
  rewrite load_no_prior_database by (left; by rewrite Hptr).
  rewrite Hmk. unfold default_database_creator, alloc_in. cbn [fst snd].
  set (wA := set_heap _ (before_creator self w0)).
  set (l0 := fresh (dom (heap (before_creator self w0)))).
  assert (heap wA !! l0 = Some empty_dict) as HlA by apply lookup_insert_eq.
  (* print(db) *)
  unfold bind at 1. rewrite (print_value_object _ _ _ _ _ HlA).
  (* db["wow"] = "haha" *)
  unfold bind at 1. rewrite update_in_place_object. cbn [fst snd].
  set (wB := set_heap _ (set_stdout _ wA)).
  assert (heap wB !! l0 = Some o1) as HlB.
  { change (heap wB) with (alter (setitem "wow" "haha") l0 (heap wA)).
    by rewrite lookup_alter_eq, HlA. }
  (* print(db) *)
  unfold bind at 1. rewrite (print_value_object _ _ _ _ _ HlB).
  (* save(db) *)
  unfold bind at 1.
  assert (save_file_of self stamp1 = p1) as Hp1
    by (unfold save_file_of; by rewrite Hfolder).
  rewrite (save_writes _ _ (PyRef l0) l0 o1 bytes1 stamp1 out1 k1 kp);
    [|done|exact HlB|done|by rewrite <- Hstamp1; apply stamp_in_same
     |rewrite save_file_of_set_database, Hp1; apply Hk1_w
     |change (exact_most_recent_save_file (set_database (PyRef l0) self))
        with (exact_most_recent_save_file self);
      rewrite Hptr; apply Hkp_w].
  rewrite save_file_of_set_database, Hp1.
  change (exact_most_recent_save_file (set_database (PyRef l0) self))
    with (exact_most_recent_save_file self).
  rewrite Hptr.
  set (selfC := set_database (PyRef l0) (set_database (PyRef l0) self)).
  set (wC := saved_world _ pointer kp p1 k1 bytes1 out1).
  (* with database_interface.load_then_save() as db: *)
  assert (read_file wC (exact_most_recent_save_file selfC) = Ok p1) as HpC.
  { change (exact_most_recent_save_file selfC)
      with (exact_most_recent_save_file self).
    rewrite Hptr. apply (read_file_there _ _ kp); [apply Hkp_r|].
    apply lookup_insert_eq. }
  pose proof (reads_back_names _ Hback) as Hws.
  assert (read_file wC (strip (readline p1)) = Ok bytes1) as HrecC.
  { destruct Hback as [-> _]. apply (read_file_there _ _ k1); [apply Hk1_r|].
    change (files wC)
      with (<[kp := p1]> (<[k1 := bytes1]>
              (files (set_stdout (stdout wB ++ [str_of (Some o1)]) wB)))).
    rewrite lookup_insert_ne by done. apply lookup_insert_eq. }
  pose proof (load_record _ _ _ _ _ HpC Hws HrecC Hload1) as Hload.
  cbn zeta in Hload.
  set (l2 := fresh (dom (heap wC))) in Hload.
  rewrite (with_load_then_save_entered _ _ _ _ Hload). cbn [fst snd].
  change (_database (set_database (PyRef l2) selfC)) with (PyRef l2).
  set (selfD := set_database (PyRef l2) selfC).
  set (wD := set_stdout _ (set_heap _ _)).
  assert (heap wD !! l2 = Some o1) as HlD by apply lookup_insert_eq.
  (* print(db); db["hi"] = "yay" *)
  unfold bind at 1. rewrite (print_value_object _ _ _ _ _ HlD).
  rewrite update_in_place_object.
  set (wE := set_heap _ (set_stdout _ wD)).
  assert (heap wE !! l2 = Some o2) as HlE.
  { change (heap wE) with (alter (setitem "hi" "yay") l2 (heap wD)).
    by rewrite lookup_alter_eq, HlD. }
  (* the save() of the finally block *)
  assert (save_file_of selfD stamp2 = p2) as Hp2
    by (unfold save_file_of; cbn; by rewrite Hfolder).
  rewrite (save_writes selfD wE PyNone l2 o2 bytes2 stamp2 out2 k2 kp);
    [|done|exact HlE|done| | |].
  2: { rewrite <- Hstamp2. apply stamp_in_same; cbn; [done|by rewrite Hticks0]. }
  2: { rewrite Hp2. apply Hk2. }
  2: { change (exact_most_recent_save_file selfD)
         with (exact_most_recent_save_file self).
       rewrite Hptr. apply Hkp_w. }
  rewrite Hp2.
  change (exact_most_recent_save_file selfD)
    with (exact_most_recent_save_file self).
  rewrite Hptr.
  eexists. split; [reflexivity|]. cbn [fst snd]. split; [|split].
  - change (files (saved_world wE pointer kp p2 k2 bytes2 out2))
      with (<[kp := p2]> (<[k2 := bytes2]> (files wE))).
    apply lookup_insert_eq.
  - intros Hne2.
    change (files (saved_world wE pointer kp p2 k2 bytes2 out2))
      with (<[kp := p2]> (<[k2 := bytes2]> (files wE))).
    rewrite lookup_insert_ne by done. apply lookup_insert_eq.
  - change (_database (set_database (PyRef l2) selfD)) with (PyRef l2).
    unfold snapshot.
    change (heap (saved_world wE pointer kp p2 k2 bytes2 out2)) with (heap wE).
    by rewrite HlE.
Qed.

Lemma init_made folder creator name w :
  os_isdir (dirs w) (dom (files w)) folder = false →
  os_mkdir_refusal (dirs w) (dom (files w)) folder = None →
  init folder creator name w
  = (Ok (new_store folder creator name), (init folder creator name w).2).
Proof. unfold init. by intros -> ->. Qed.

End Properties.

(** * The theorems at work on the example runtime *)

#[local] Existing Instance demo_runtime.

(** On the example file system a path names a file by its normal form,
    whatever files there are, when the directory it lies in is there. *)
Ltac demo_names := intros ?; vm_compute; reflexivity.

Ltac demo_missing :=
  eexists (FileNotFoundError _); split; vm_compute; reflexivity.

(** C4 at a fresh default store on an empty disk: [load] makes the empty
    dictionary. *)
Lemma load_cold_start_witness :
  let s := demo_store (demo_world [] []) in
  no_prior_database s.1 s.2
  ∧ load (s.1, s.2)
    = (Ok (PyRef one),
       (set_database (PyRef one) s.1,
        (default_database_creator (before_creator s.1 s.2)).2)).
Proof.
  intros s. assert (no_prior_database s.1 s.2) as Hcold by (left; demo_missing).
  split; [exact Hcold|].
  exact (proj1 (load_cold_start s.1 s.2 (PyRef one) _ Hcold eq_refl)).
Defined.

(** C3 at a pointer file that names a record which is not on the disk *)
Lemma load_missing_record_raises_witness :
  let s := demo_store (demo_world dangling_disk []) in
  missing s.2 demo_record
  ∧ ∃ msg,
    load (s.1, s.2)
    = (Raise (RuntimeError msg),
       (s.1, logged [OpenRead demo_record; OpenRead demo_pointer] s.2)).
Proof.
  intros s. assert (missing s.2 demo_record) as Hrec by demo_missing.
  split; [exact Hrec|].
  exact (proj1 (load_missing_record_raises s.1 s.2 demo_record
                  eq_refl eq_refl Hrec)).
Defined.

(** C7 at a fresh default store *)
Lemma save_without_value_fails_atomically_witness :
  let s := demo_store (demo_world [] [noon]) in
  save PyNone (s.1, s.2) = (Raise NoDatabaseError, (s.1, s.2)).
Proof. intros s. exact (save_without_value_fails_atomically s.1 s.2 eq_refl). Defined.

(** C8 at a store that holds object [1], and at a store just constructed *)
Lemma expose_reads_memory_only_witness :
  let s := demo_held default_save_folder default_most_recent_save_file [] [] in
  expose s = (Ok (PyRef one), s)
  ∧ ∀ self' w',
      init "archive" default_database_creator "latest.txt" (demo_world [] [])
      = (Ok self', w') →
      expose (self', w') = (Raise NoDatabaseError, (self', w')).
Proof.
  intros s. split.
  - refine (proj1 (expose_reads_memory_only s) _). discriminate.
  - intros self' w'.
    exact (proj1 (proj2 (proj2 (expose_reads_memory_only s))) _ _ _ _ self' w').
Defined.

(** C10 at a fresh store whose factory returns [None] *)
Lemma none_factory_leaves_nothing_resident_witness :
  let s := (new_store default_save_folder none_creator
                      default_most_recent_save_file,
            demo_world [] [noon]) in
  let after := (set_database PyNone s.1, before_creator s.1 s.2) in
  load (s.1, s.2) = (Ok PyNone, after)
  ∧ expose after = (Raise NoDatabaseError, after)
  ∧ save PyNone after = (Raise NoDatabaseError, after)
  ∧ (_database s.1 = PyNone → after.1 = s.1).
Proof.
  intros s.
  refine (none_factory_leaves_nothing_resident s.1 s.2 _ _ _).
  - left. demo_missing.
  - reflexivity.
Defined.

(** C9 at a fresh store over a disk with a pointer file and its record:
    the first call loads object [1], the second answers it again. *)
Lemma expose_or_load_reads_at_most_pointer_and_record_witness :
  let s := demo_store (demo_world warm_disk []) in
  expose_or_load (s.1, s.2) = load (s.1, s.2)
  ∧ expose_or_load (expose_or_load (s.1, s.2)).2
    = (Ok (PyRef one), (expose_or_load (s.1, s.2)).2)
  ∧ (reads_between s.2 (expose_or_load (s.1, s.2)).2.2 ≤ 2)%nat.
Proof.
  intros s.
  destruct (expose_or_load_reads_at_most_pointer_and_record s.1 s.2)
    as (_ & Hload & Hagain & Hopens).
  split; [exact (Hload eq_refl)|split].
  - apply Hagain. apply (outcome_eta (expose_or_load (s.1, s.2))).
    vm_compute. reflexivity.
  - apply Hopens. intros w0. unfold default_database_creator, alloc_in.
    reflexivity.
Defined.

(** C9 as stated fails: a call that loads opens the pointer file and the
    record file, two files. *)
Lemma expose_or_load_opens_two_files :
  ¬ at_most_one_read (demo_store (demo_world warm_disk [])).
Proof. unfold at_most_one_read. vm_compute. lia. Qed.

(** C5 at a fresh store whose factory raises [NoDatabaseError]: the scope
    raises it and the disk stays empty. *)
Lemma expose_or_load_then_save_scope_witness :
  let s := (new_store default_save_folder refusing_creator
                      default_most_recent_save_file,
            demo_world [] [noon]) in
  let s1 := (s.1, before_creator s.1 s.2) in
  expose_or_load s = (Raise NoDatabaseError, s1)
  ∧ with_ expose_or_load_then_save (mutate_then_raise set_wow TypeError) s
    = (Raise NoDatabaseError, s1)
  ∧ files s1.2 = ∅.
Proof.
  intros s s1.
  assert (expose_or_load s = (Raise NoDatabaseError, s1)) as Hentry.
  { apply (outcome_eta (expose_or_load s)). vm_compute. reflexivity. }
  split; [exact Hentry|split; [|reflexivity]].
  exact (proj1 (proj1 (expose_or_load_then_save_scope _ s) s1 Hentry)).
Defined.

(** C5 as stated fails: on a fresh default store over an empty disk nothing
    is resident and there is no pointer file, yet the scope is entered with
    the factory's dictionary, returns, and has saved on the way out. *)
Lemma scope_saves_on_a_cold_start :
  let s := demo_store (demo_world [] [noon]) in
  ¬ refuses_without_database s (fun _ => ret tt)
  ∧ (with_ expose_or_load_then_save (fun _ => ret tt) s).1 = Ok tt
  ∧ files (with_ expose_or_load_then_save (fun _ => ret tt) s).2.2 !! demo_pointer
    = Some demo_record.
Proof.
  intros s. split; [|split; vm_compute; reflexivity].
  intros Hclaim.
  destruct Hclaim as (e & s' & Hscope & _); [reflexivity|demo_missing|].
  apply (f_equal fst) in Hscope. vm_compute in Hscope. discriminate Hscope.
Qed.


(** C6 at a fresh default store on an empty disk: the body adds an entry
    and raises; the record holds the entry and the exception comes out. *)
Lemma load_then_save_scope_always_saves_witness :
  let s := demo_store (demo_world [] [noon]) in
  let s3 :=
    (with_ load_then_save (mutate_then_raise set_wow (OtherException "Boom")) s).2 in
  with_ load_then_save (mutate_then_raise set_wow (OtherException "Boom")) s
  = (Raise (OtherException "Boom"), s3)
  ∧ files s3.2 !! demo_pointer = Some demo_record
  ∧ pickle_loads <$> files s3.2 !! demo_record
    = Some (Some (Some [("wow", "haha")])).
Proof.
  intros s s3.
  assert (load s = (Ok (PyRef one), ((load s).2.1, (load s).2.2))) as Hload.
  { rewrite <- surjective_pairing. apply (outcome_eta (load s)).
    vm_compute. reflexivity. }
  pose proof (proj2 (proj2 (load_then_save_scope_always_saves
                              (H := demo_runtime)
                              (fun _ => ret tt) s (load s).2.1 (load s).2.2
                              one [] set_wow (OtherException "Boom")
                              noon []))
                Hload) as Hscope.
  split; [|split; vm_compute; reflexivity].
  refine (outcome_eta _ _
            (f_equal fst
               (proj1 (Hscope _ _) demo_record
                  (default EmptyString (demo_dumps (Some [("wow", "haha")])))
                  demo_pointer _ _ _))).
  - vm_compute. reflexivity.
  - vm_compute. reflexivity.
  - vm_compute. reflexivity.
  - vm_compute. reflexivity.
  - vm_compute. reflexivity.
Defined.

(** C6 as stated fails: when the body leaves the loaded dictionary with a
    key that cannot be pickled and raises, the scope raises the pickling
    error, not the exception of the body, and the new record file holds no
    dictionary. *)
Lemma scope_raises_the_pickling_error :
  let s := demo_store (demo_world warm_disk [a_second_later]) in
  let body := mutate_then_raise (fun _ => unpicklable) (OtherException "Boom") in
  ¬ raises_what_the_body_raised s (fun _ => unpicklable) (OtherException "Boom")
  ∧ (with_ load_then_save body s).1 = Raise PicklingError
  ∧ files (with_ load_then_save body s).2.2 !! later_record = Some "D".
Proof.
  intros s body. split; [|split; vm_compute; reflexivity].
  intros Hclaim.
  destruct (Hclaim one (load s).2) as (s' & Hscope).
  { apply (outcome_eta (load s)). vm_compute. reflexivity. }
  apply (f_equal fst) in Hscope. vm_compute in Hscope. discriminate Hscope.
Qed.

(** C1 at a default store that is handed a dictionary with one entry *)
Lemma save_then_fresh_load_round_trips_witness :
  let s := demo_held default_save_folder default_most_recent_save_file
                     [("wow", "haha")] [noon] in
  (∃ s1, save (PyRef one) (s.1, s.2) = (Ok tt, s1))
  ∧ round_trips s.1 s.2 (PyRef one) default_database_creator.
Proof.
  intros s.
  refine (save_then_fresh_load_round_trips s.1 s.2 one [("wow", "haha")]
            noon [] default_database_creator demo_record demo_pointer
            _ _ _ _ _ _ _ _ _).
  - reflexivity.
  - reflexivity.
  - eexists. split; vm_compute; reflexivity.
  - reflexivity.
  - split; vm_compute; reflexivity.
  - demo_names.
  - split; demo_names.
  - split; demo_names.
  - vm_compute. discriminate.
Defined.

(** C1 as stated fails in three ways.  [save(None)] on a store that holds a
    dictionary saves the dictionary, and the fresh [load] returns it, not
    [None].  With a folder whose name begins with a space the pointer's
    line is stripped into another path and the fresh [load] raises.  With a
    pointer file name that is another spelling of the record's name, the
    two paths name one file, the pointer text overwrites the record and the
    fresh [load] raises. *)
Lemma round_trip_counterexamples :
  (let s := demo_held default_save_folder default_most_recent_save_file
                      [("wow", "haha")] [noon] in
   ¬ round_trips s.1 s.2 PyNone default_database_creator)
  ∧ (let s := demo_held " db" default_most_recent_save_file [] [noon] in
     ¬ round_trips s.1 s.2 (PyRef one) default_database_creator)
  ∧ (let s := demo_held default_save_folder "./db_sv_12_00_00_Jan_01_2026.pkl"
                        [] [noon] in
     save_file_of s.1 noon ≠ exact_most_recent_save_file s.1
     ∧ ¬ round_trips s.1 s.2 (PyRef one) default_database_creator).
Proof.
  split; [|split]; intros s; [| |split; [vm_compute; discriminate|]];
    intros Hclaim.
  - assert (load_afresh s.1 default_database_creator
                        (save PyNone (s.1, s.2)).2.2
            = Some None) as Hback.
    { apply Hclaim; [reflexivity|by exists "N"|].
      apply (outcome_eta (save PyNone (s.1, s.2))). vm_compute. reflexivity. }
    vm_compute in Hback. discriminate Hback.
  - assert (load_afresh s.1 default_database_creator
                        (save (PyRef one) (s.1, s.2)).2.2
            = Some (Some [])) as Hback.
    { apply Hclaim; [reflexivity|by exists "D"|].
      apply (outcome_eta (save (PyRef one) (s.1, s.2))). vm_compute. reflexivity. }
    vm_compute in Hback. discriminate Hback.
  - assert (load_afresh s.1 default_database_creator
                        (save (PyRef one) (s.1, s.2)).2.2
            = Some (Some [])) as Hback.
    { apply Hclaim; [reflexivity|by exists "D"|].
      apply (outcome_eta (save (PyRef one) (s.1, s.2))). vm_compute. reflexivity. }
    vm_compute in Hback. discriminate Hback.
Qed.





(** ** The further properties at work *)

(** X1 at a folder that is not on the disk yet, and at a folder whose
    parent is not there *)
Lemma init_creates_folder_once_witness :
  (∃ w', init "archive" default_database_creator "latest.txt" (demo_world [] [])
         = (Ok (new_store "archive" default_database_creator "latest.txt"), w')
         ∧ dirs w' = {["archive"]} ∪ dirs (demo_world [] []))
  ∧ init "a/b" default_database_creator "latest.txt" (demo_world [] [])
    = (Raise (FileNotFoundError "a/b"), demo_world [] []).
Proof.
  destruct (init_creates_folder_once "archive" default_database_creator
              "latest.txt" (demo_world [] []))
    as (_ & _ & Hmade & _).
  destruct (init_creates_folder_once "a/b" default_database_creator
              "latest.txt" (demo_world [] []))
    as (_ & Hrefused & _).
  split.
  - destruct Hmade as (w' & Hinit & Hdirs & _);
      [vm_compute; reflexivity|vm_compute; reflexivity|].
    exists w'. by split.
  - apply Hrefused; vm_compute; reflexivity.
Defined.



(** X4 at a clock that raises an [OSError] *)
Lemma save_names_record_UnknownTime_witness :
  let s := demo_held_on [] [("wow", "haha")] (clock_of []) in
  (save PyNone (s.1, s.2)).1 = Ok tt
  ∧ files (save PyNone (s.1, s.2)).2.2 !! demo_pointer
    = Some "database/db_sv_UnknownTime.pkl".
Proof.
  intros s.
  pose proof (proj1 (save_names_record_UnknownTime PyNone s.1 s.2 one
                       (OtherException "OSError") eq_refl eq_refl)
                eq_refl [("wow", "haha")]
                (default EmptyString (demo_dumps (Some [("wow", "haha")])))
                "database/db_sv_UnknownTime.pkl" demo_pointer
                eq_refl eq_refl) as Hsave.
  rewrite Hsave; [|vm_compute; reflexivity|vm_compute; reflexivity].
  split; [reflexivity|]. vm_compute. reflexivity.
Defined.

(** X5 at a dictionary whose key the example pickle refuses *)
Lemma save_unpicklable_is_not_atomic_witness :
  let s := demo_held_on warm_disk [] (clock_of [a_second_later]) in
  let w1 := World (heap s.2 ∪ {[2%positive := unpicklable]}) (files s.2) (dirs s.2)
                  (stdout s.2) (io_log s.2) (clock s.2) (ticks s.2) in
  ∃ s1,
    save (PyRef 2%positive) (s.1, w1) = (Raise PicklingError, s1)
    ∧ _database s1.1 = PyRef 2%positive
    ∧ files s1.2 !! later_record = Some "D"
    ∧ files s1.2 !! demo_pointer = Some demo_record.
Proof.
  intros s w1.
  destruct (save_unpicklable_is_not_atomic s.1 w1 2%positive a_second_later []
              later_record)
    as (s1 & Hsave & Hdb & Hrec & Hother).
  - vm_compute. reflexivity.
  - reflexivity.
  - vm_compute. reflexivity.
  - exists s1. split; [exact Hsave|]. split; [exact Hdb|].
    split; [exact Hrec|].
    rewrite (Hother demo_pointer); [vm_compute; reflexivity|].
    vm_compute. discriminate.
Defined.

(** X6 at a store that is handed a dictionary *)
Lemma save_makes_argument_resident_witness :
  let s := demo_held default_save_folder default_most_recent_save_file
                     [("wow", "haha")] [noon] in
  expose (save (PyRef one) (s.1, s.2)).2
  = (Ok (PyRef one), (save (PyRef one) (s.1, s.2)).2).
Proof.
  intros s.
  apply (proj2 (proj2 (save_makes_argument_resident s.1 s.2)) one).
  apply (outcome_eta (save (PyRef one) (s.1, s.2))). vm_compute. reflexivity.
Defined.

(** X7 at a fresh store over a pointer file that names a missing record *)
Lemma scopes_mask_missing_record_witness :
  let s := demo_store (demo_world dangling_disk [noon]) in
  let s1 := (s.1, logged [OpenRead demo_record; OpenRead demo_pointer] s.2) in
  with_ load_then_save (mutate_then_raise set_wow TypeError) (s.1, s.2)
  = (Raise NoDatabaseError, s1)
  ∧ with_ expose_or_load_then_save (mutate_then_raise set_wow TypeError) (s.1, s.2)
    = (Raise NoDatabaseError, s1).
Proof.
  intros s.
  refine (scopes_mask_missing_record (mutate_then_raise set_wow TypeError)
            s.1 s.2 demo_record eq_refl eq_refl eq_refl _).
  demo_missing.
Defined.

(** X8 at a store that holds a dictionary, over a pointer file that names a
    missing record *)
Lemma load_then_save_saves_after_failed_entry_witness :
  let s := demo_held_on dangling_disk [("wow", "haha")] (clock_of [a_second_later]) in
  ∃ msg s3,
    with_ load_then_save (mutate_then_raise set_wow TypeError) (s.1, s.2)
    = (Raise (RuntimeError msg), s3)
    ∧ files s3.2 !! demo_pointer = Some later_record.
Proof.
  intros s.
  destruct (load_then_save_saves_after_failed_entry (H := demo_runtime)
              (mutate_then_raise (H := demo_runtime) set_wow TypeError)
              s.1 s.2 demo_record one
              [("wow", "haha")]
              (default EmptyString (demo_dumps (Some [("wow", "haha")])))
              a_second_later [] later_record demo_pointer
              eq_refl eq_refl eq_refl eq_refl eq_refl eq_refl)
    as [msg Hscope].
  - demo_missing.
  - vm_compute. reflexivity.
  - vm_compute. reflexivity.
  - exists msg. eexists. split; [exact Hscope|]. vm_compute. reflexivity.
Defined.

(** X9 at a store that holds an empty dictionary which the body fills *)
Lemma expose_or_load_then_save_saves_resident_value_witness :
  let s := demo_held_on warm_disk [] (clock_of [a_second_later]) in
  ∃ s3,
    with_ expose_or_load_then_save (update_in_place set_wow) (s.1, s.2)
    = (Ok tt, s3)
    ∧ io_log s3.2 = [OpenWrite demo_pointer; OpenWrite later_record]
    ∧ pickle_loads <$> files s3.2 !! later_record
      = Some (Some (Some [("wow", "haha")])).
Proof.
  intros s. eexists. split.
  - refine (expose_or_load_then_save_saves_resident_value s.1 s.2 one []
              set_wow (default EmptyString (demo_dumps (Some [("wow", "haha")])))
              a_second_later [] later_record demo_pointer
              eq_refl eq_refl eq_refl eq_refl _ _);
      vm_compute; reflexivity.
  - split; vm_compute; reflexivity.
Defined.

(** X10 at a fresh store whose factory returns [None], with a body that
    does nothing *)
Lemma load_then_save_with_none_factory_witness :
  let s := (new_store default_save_folder none_creator
                      default_most_recent_save_file,
            demo_world [] [noon]) in
  with_ load_then_save (fun _ => ret tt) (s.1, s.2)
  = (Raise NoDatabaseError, (set_database PyNone s.1, before_creator s.1 s.2)).
Proof.
  intros s.
  refine (load_then_save_with_none_factory (fun _ => ret tt) s.1 s.2
            (before_creator s.1 s.2) (Ok tt) _ _ eq_refl eq_refl eq_refl).
  left. demo_missing.
Defined.

(** X11 at a fresh default store and a body that does nothing *)
Lemma configuration_is_invariant_witness :
  let s := demo_store (demo_world warm_disk [noon]) in
  constructed (load s).2.1
  ∧ configured_as s.1 (with_ load_then_save (fun _ => ret tt) s).2.1.
Proof.
  intros s.
  destruct (configuration_is_invariant s (fun _ => ret tt))
    as (_ & _ & _ & Hscopes & Hkept).
  split.
  - exact (proj1 (Hkept (new_store_constructed _ _ _))).
  - exact (proj1 (Hscopes (fun v => keeps_ret tt))).
Defined.

(** X12 at a store over a disk with a pointer file and its record: a
    [save] one second later leaves the older record in place *)
Lemma no_method_deletes_a_file_witness :
  let s := demo_held_on warm_disk [("wow", "haha")] (clock_of [a_second_later]) in
  is_Some (files (save PyNone (s.1, s.2)).2.2 !! demo_record).
Proof.
  intros s.
  apply (proj1 (no_method_deletes_a_file s.1 s.2) PyNone demo_record).
  exists "D". vm_compute. reflexivity.
Defined.

(** X13 at an empty disk, the two saves one second apart *)
Lemma main_on_a_cold_start_witness :
  ∃ self' w',
    main demo_setitem demo_str (demo_world [] [noon; a_second_later])
    = (Ok self', w')
    ∧ files w' !! "testing_database_interface/_most_recent_save.txt"
      = Some "testing_database_interface/db_sv_12_00_01_Jan_01_2026.pkl"
    ∧ snapshot (heap w') (_database self')
      = Some (Some [("wow", "haha"); ("hi", "yay")]).
Proof.
  destruct (main_on_a_cold_start (H := demo_runtime) demo_setitem demo_str
              (demo_world [] [noon; a_second_later]) noon [] a_second_later []
              (default EmptyString (demo_dumps (Some [("wow", "haha")])))
              (default EmptyString
                 (demo_dumps (Some [("wow", "haha"); ("hi", "yay")])))
              (new_store (H := demo_runtime) "testing_database_interface"
                         (default_database_creator (H := demo_runtime))
                         default_most_recent_save_file)
              (init (H := demo_runtime) "testing_database_interface"
                    (default_database_creator (H := demo_runtime))
                    default_most_recent_save_file
                    (demo_world [] [noon; a_second_later])).2
              "testing_database_interface/db_sv_12_00_00_Jan_01_2026.pkl"
              "testing_database_interface/db_sv_12_00_01_Jan_01_2026.pkl"
              "testing_database_interface/_most_recent_save.txt")
    as (self' & w' & Hrun & Hptr & _ & Hheld).
  - apply init_made; vm_compute; reflexivity.
  - demo_missing.
  - reflexivity.
  - reflexivity.
  - reflexivity.
  - vm_compute. reflexivity.
  - reflexivity.
  - split; vm_compute; reflexivity.
  - split; demo_names.
  - split; demo_names.
  - demo_names.
  - vm_compute. discriminate.
  - exists self', w'. split; [exact Hrun|]. split; [exact Hptr|exact Hheld].
Defined.
